(** * MCP skill executor ([src/executor.py]): a shallow embedding

    The executor is a thin client of the [mcp] package: it spawns a
    server over stdio, opens a [ClientSession] on the two streams and
    forwards [list_tools] / [call_tool] requests.  The package is not
    part of the repository, so it is modelled as an oracle: a record of
    functions over an abstract world state [W] returning either a
    result or the Python exception the call raised.  Every call the
    executor makes to the package is appended to a trace, so that
    statements about "how many handshakes" are statements about that
    trace.

    Python semantics kept explicit:
    - attribute writes on [self] survive a later exception, so the
      monad is state-passing with the result on the side
      ([state -> result A * state]) and not an error monad under a
      state transformer;
    - [except Exception] does not catch [SystemExit]; a bare [except:]
      catches everything;
    - [finally] runs on every exit from [try], handler included. *)

From Stdlib Require Import String List ZArith Bool Lia.
Import ListNotations.
Local Open Scope string_scope.
Local Open Scope list_scope.

(** ** Python values *)

Set Warnings "-register-all".

(** JSON-like data plus plain objects (an object is its class name and
    its [__dict__]). *)
Inductive value : Type :=
| VNone
| VBool (b : bool)
| VInt (z : Z)
| VStr (s : string)
| VList (items : list value)
| VDict (entries : list (string * value))
| VObj (cls : string) (attrs : list (string * value)).

(** Lookup in an insertion-ordered mapping with string keys. *)
Fixpoint lookup {A : Type} (k : string) (kvs : list (string * A)) : option A :=
  match kvs with
  | [] => None
  | (k', v) :: rest => if String.eqb k' k then Some v else lookup k rest
  end.

(** Python truth value, as used by [if schema:]. *)
Definition truthy (v : value) : bool :=
  match v with
  | VNone => false
  | VBool b => b
  | VInt z => negb (Z.eqb z 0)
  | VStr s => negb (String.eqb s "")
  | VList l => match l with [] => false | _ => true end
  | VDict d => match d with [] => false | _ => true end
  | VObj _ _ => true
  end.

(** ** Exceptions and results *)

(** An instance of (a subclass of) [Exception]. *)
Record pyerror : Type := mk_error { err_class : string; err_msg : string }.

(** What a [raise] can carry in this program: an [Exception], or the
    [SystemExit] of [sys.exit], which is a [BaseException] only. *)
Inductive exn : Type :=
| Error (e : pyerror)
| SystemExit (code : Z).

Inductive result (A : Type) : Type :=
| Ok (a : A)
| Raise (e : exn).
Arguments Ok {A} a.
Arguments Raise {A} e.

Definition is_ok {A : Type} (r : result A) : bool :=
  match r with Ok _ => true | Raise _ => false end.

(** [repr] of a string key, as [str(KeyError(k))] shows it: the key in
    single quotes.  This is Python's text for a key without quotes,
    backslashes or control characters, as are the two keys the
    program subscripts with, [command] and [tool]. *)
Definition py_repr (k : string) : string := "'" ++ k ++ "'".

(** [type(v).__name__] *)
Definition type_name (v : value) : string :=
  match v with
  | VNone => "NoneType"
  | VBool _ => "bool"
  | VInt _ => "int"
  | VStr _ => "str"
  | VList _ => "list"
  | VDict _ => "dict"
  | VObj cls _ => cls
  end.

(** The text of the [TypeError] that subscripting a value that is not
    a mapping with a string raises (CPython 3.11 and later). *)
Definition not_subscriptable (d : value) : string :=
  match d with
  | VStr _ => "string indices must be integers, not 'str'"
  | VList _ => "list indices must be integers or slices, not str"
  | _ => "'" ++ type_name d ++ "' object is not subscriptable"
  end.

(** [d[k]] *)
Definition subscript (d : value) (k : string) : result value :=
  match d with
  | VDict kvs =>
      match lookup k kvs with
      | Some v => Ok v
      | None => Raise (Error (mk_error "KeyError" (py_repr k)))
      end
  | _ => Raise (Error (mk_error "TypeError" (not_subscriptable d)))
  end.

(** [d.get(k, default)] *)
Definition dict_get (d : value) (k : string) (default : value) : result value :=
  match d with
  | VDict kvs =>
      match lookup k kvs with
      | Some v => Ok v
      | None => Ok default
      end
  | _ => Raise (Error (mk_error "AttributeError"
                              ("'" ++ type_name d ++ "' object has no attribute 'get'")))
  end.

(** ** The [mcp] package, as the executor sees it *)

Definition stream : Type := nat.

(** [StdioServerParameters(command=..., args=..., env=...)] *)
Record StdioServerParameters : Type := mk_params {
  command : value;
  args : value;
  env : value
}.

(** [ClientSession(read_stream, write_stream)] *)
Record ClientSession : Type := mk_session {
  read_stream : stream;
  write_stream : stream
}.

(** One entry of [response.tools]. *)
Record Tool : Type := mk_tool {
  name : string;
  description : value;
  inputSchema : value
}.

Record ListToolsResult : Type := mk_listing { tools : list Tool }.

(** The reply to [call_tool]: the content items and the protocol's
    flag by which the remote tool reports that it failed. *)
Record CallToolResult : Type := mk_call_result {
  content : value;
  isError : bool
}.

(** The package over a world state [W].  Each awaited call either
    returns or raises an [Exception]; interrupts and task cancellation
    are outside this sequential model. *)
Record MCP (W : Type) : Type := mk_mcp {
  stdio_client : StdioServerParameters -> W -> (pyerror + stream * stream) * W;
  session_initialize : ClientSession -> W -> (pyerror + unit) * W;
  session_list_tools : ClientSession -> W -> (pyerror + ListToolsResult) * W;
  session_call_tool : ClientSession -> value -> value -> W -> (pyerror + CallToolResult) * W;
  session_aexit : ClientSession -> W -> (pyerror + unit) * W
}.
Arguments stdio_client {W} _ _ _.
Arguments session_initialize {W} _ _ _.
Arguments session_list_tools {W} _ _ _.
Arguments session_call_tool {W} _ _ _ _ _.
Arguments session_aexit {W} _ _ _.

(** Modelled from the spec: the class [StdioServerParameters] belongs
    to the [mcp] package and is not part of the repository.  Its
    fields have the types of the spec's launch specification
    ([command]: string, [args]: sequence of strings, [env]: optional
    mapping from strings to strings), and its constructor raises a
    [ValidationError] when a value is not of its field's type.  The
    text of that error is the package's and is not modelled. *)
Definition is_str (v : value) : bool :=
  match v with VStr _ => true | _ => false end.

Definition valid_command (c : value) : bool := is_str c.

Definition valid_args (a : value) : bool :=
  match a with
  | VList items => forallb is_str items
  | _ => false
  end.

Definition valid_env (e : value) : bool :=
  match e with
  | VNone => true
  | VDict entries => forallb (fun kv => is_str (snd kv)) entries
  | _ => false
  end.

Definition StdioServerParameters_new (c a e : value) : result StdioServerParameters :=
  if valid_command c && valid_args a && valid_env e
  then Ok (mk_params c a e)
  else Raise (Error (mk_error "ValidationError"
                              "validation error for StdioServerParameters")).

(** The first statement of [connect]: the three reads of
    [self.server_config], in argument order, and then the call of the
    constructor. *)
Definition server_params_of (server_config : value) : result StdioServerParameters :=
  match subscript server_config "command" with
  | Raise e => Raise e
  | Ok c =>
      match dict_get server_config "args" (VList []) with
      | Raise e => Raise e
      | Ok a =>
          match dict_get server_config "env" VNone with
          | Raise e => Raise e
          | Ok e => StdioServerParameters_new c a e
          end
      end
  end.

(** What the executor did, in order.  [EvConnect] marks entry into
    [MCPExecutor.connect]; the others are the calls into the package. *)
Inductive event : Type :=
| EvConnect
| EvStdioClient (p : StdioServerParameters)
| EvClientSession (s : ClientSession)
| EvInitialize (s : ClientSession)
| EvListTools (s : ClientSession)
| EvCallTool (s : ClientSession) (tool_name arguments : value)
| EvAexit (s : ClientSession).

(** A line written by [print]. *)
Inductive line : Type :=
| Stdout (s : string)
| Stderr (s : string).

(** ** The executor object and the machine state *)

Record MCPExecutor : Type := mk_executor {
  server_config : value;
  session : option ClientSession;
  stdio_transport : option (stream * stream)
}.

(** The one executor object of a run, the world behind the package,
    and the two logs. *)
Record state (W : Type) : Type := mk_state {
  self : MCPExecutor;
  world : W;
  trace : list event;
  console : list line
}.
Arguments mk_state {W} _ _ _ _.
Arguments self {W} _.
Arguments world {W} _.
Arguments trace {W} _.
Arguments console {W} _.

Section Executor.

Context {W : Type}.
Variable mcp : MCP W.

(** *** State with exceptions *)

Definition M (A : Type) : Type := state W -> result A * state W.

Definition ret {A : Type} (a : A) : M A := fun st => (Ok a, st).

Definition bind {A B : Type} (m : M A) (k : A -> M B) : M B :=
  fun st =>
    match m st with
    | (Ok a, st') => k a st'
    | (Raise e, st') => (Raise e, st')
    end.

Definition raise {A : Type} (e : exn) : M A := fun st => (Raise e, st).

Definition lift_result {A : Type} (r : result A) : M A := fun st => (r, st).

Definition get_self : M MCPExecutor := fun st => (Ok (self st), st).

Definition set_self (f : MCPExecutor -> MCPExecutor) : M unit :=
  fun st => (Ok tt, mk_state (f (self st)) (world st) (trace st) (console st)).

Definition log (ev : event) : M unit :=
  fun st => (Ok tt, mk_state (self st) (world st) (trace st ++ [ev]) (console st)).

Definition print (l : line) : M unit :=
  fun st => (Ok tt, mk_state (self st) (world st) (trace st) (console st ++ [l])).

(** An awaited call into the package: recorded, then answered by the
    oracle, which also moves the world on. *)
Definition await {A : Type} (ev : event) (f : W -> (pyerror + A) * W) : M A :=
  fun st =>
    let '(r, w') := f (world st) in
    let st' := mk_state (self st) w' (trace st ++ [ev]) (console st) in
    match r with
    | inr a => (Ok a, st')
    | inl e => (Raise (Error e), st')
    end.

(** [try: m  except: pass] *)
Definition try_except_pass (m : M unit) : M unit :=
  fun st =>
    match m st with
    | (Ok _, st') => (Ok tt, st')
    | (Raise _, st') => (Ok tt, st')
    end.

(** [try: m  except Exception as e: h e] *)
Definition try_except_Exception {A : Type} (m : M A) (h : pyerror -> M A) : M A :=
  fun st =>
    match m st with
    | (Raise (Error e), st') => h e st'
    | other => other
    end.

(** [try: m  finally: f] *)
Definition try_finally {A : Type} (m : M A) (f : M unit) : M A :=
  fun st =>
    let '(r, st') := m st in
    match f st' with
    | (Ok _, st'') => (r, st'')
    | (Raise e, st'') => (Raise e, st'')
    end.

Notation "x <- m ;; k" := (bind m (fun x => k))
  (at level 61, m at next level, right associativity).
Notation "m ;;; k" := (bind m (fun _ => k))
  (at level 61, right associativity).

(** *** [class MCPExecutor] *)

(** [__init__] *)
Definition MCPExecutor_init (HAS_MCP : bool) (config : value) : result MCPExecutor :=
  if negb HAS_MCP
  then Raise (Error (mk_error "ImportError" "mcp package is required. Install with: pip install mcp"))
  else Ok (mk_executor config None None).

Definition connect : M unit :=
  log EvConnect ;;;
  me <- get_self ;;
  server_params <- lift_result (server_params_of (server_config me)) ;;
  stdio_result <- await (EvStdioClient server_params) (stdio_client mcp server_params) ;;
  set_self (fun o => mk_executor (server_config o) (session o) (Some stdio_result)) ;;;
  let '(rd, wr) := stdio_result in
  let s := mk_session rd wr in
  log (EvClientSession s) ;;;
  set_self (fun o => mk_executor (server_config o) (Some s) (stdio_transport o)) ;;;
  await (EvInitialize s) (session_initialize mcp s).

(** [self.session], as the statement after the lazy connect reads it.
    A [ClientSession] object is true in [if not self.session]; [None]
    is false and has no methods. *)
Definition the_session : M ClientSession :=
  me <- get_self ;;
  match session me with
  | Some s => ret s
  | None => raise (Error (mk_error "AttributeError" "'NoneType' object has no attribute"))
  end.

Definition list_tools : M value :=
  me <- get_self ;;
  (match session me with None => connect | Some _ => ret tt end) ;;;
  s <- the_session ;;
  response <- await (EvListTools s) (session_list_tools mcp s) ;;
  ret (VList (map (fun tool =>
                     VDict [("name", VStr (name tool));
                            ("description", description tool)])
                  (tools response))).

(** The [for tool in response.tools] loop of [describe_tool], with
    its early [return] and the [return None] after it. *)
Fixpoint scan_tools (tool_name : string) (ts : list Tool) : value :=
  match ts with
  | [] => VNone
  | tool :: rest =>
      if String.eqb (name tool) tool_name
      then VDict [("name", VStr (name tool));
                  ("description", description tool);
                  ("inputSchema", inputSchema tool)]
      else scan_tools tool_name rest
  end.

Definition describe_tool (tool_name : string) : M value :=
  me <- get_self ;;
  (match session me with None => connect | Some _ => ret tt end) ;;;
  s <- the_session ;;
  response <- await (EvListTools s) (session_list_tools mcp s) ;;
  ret (scan_tools tool_name (tools response)).

Definition call_tool (tool_name : value) (arguments : value) : M value :=
  me <- get_self ;;
  (match session me with None => connect | Some _ => ret tt end) ;;;
  s <- the_session ;;
  response <- await (EvCallTool s tool_name arguments)
                    (session_call_tool mcp s tool_name arguments) ;;
  ret (content response).

Definition close : M unit :=
  me <- get_self ;;
  match session me with
  | Some s => try_except_pass (await (EvAexit s) (session_aexit mcp s))
  | None => ret tt
  end.

End Executor.

(** ** The command line: [main] *)

(** [argparse]'s [Namespace] after [parse_args]: [--call TEXT],
    [--describe NAME], [--list]. *)
Record Namespace : Type := mk_args {
  arg_call : option string;
  arg_describe : option string;
  arg_list : bool
}.

(** Truth value of an optional string argument: absent ([None]) and
    the empty string are both false. *)
Definition given (a : option string) : bool :=
  match a with
  | Some s => negb (String.eqb s "")
  | None => false
  end.

(** What a run of [main] leaves behind: how it ended, what it wrote,
    and what it asked of the package. *)
Record process : Type := mk_process {
  outcome : result unit;
  output : list line;
  events : list event
}.

Section Main.

Context {W : Type}.
Variable mcp : MCP W.

(** The host: where the configuration file is looked for, the [json]
    module, [str], the text of a traceback, and [argparse]'s help. *)
Variable config_path : string.
Variable json_loads : string -> pyerror + value.
Variable json_dumps : value -> pyerror + string.
Variable py_str : value -> string.
Variable format_exc : pyerror -> string.
Variable help_text : string.

Notation "x <- m ;; k" := (bind m (fun x => k))
  (at level 61, m at next level, right associativity).
Notation "m ;;; k" := (bind m (fun _ => k))
  (at level 61, right associativity).

Definition lift_sum {A : Type} (r : pyerror + A) : M (W:=W) A :=
  match r with
  | inr a => ret a
  | inl e => raise (Error e)
  end.

(** [sys.exit(code)] *)
Definition sys_exit {A : Type} (code : Z) : M (W:=W) A := raise (SystemExit code).

(** [for x in xs: body x] *)
Fixpoint for_each {A : Type} (body : A -> M (W:=W) unit) (xs : list A) : M unit :=
  match xs with
  | [] => ret tt
  | x :: rest => body x ;;; for_each body rest
  end.

(** [json.dumps(x.__dict__ if hasattr(x, '__dict__') else x, indent=2)] *)
Definition dumps_dict_or_self (x : value) : pyerror + string :=
  match x with
  | VObj _ attrs => json_dumps (VDict attrs)
  | _ => json_dumps x
  end.

(** One iteration of the [for item in result] loop. *)
Definition print_item (item : value) : M (W:=W) unit :=
  match item with
  | VObj _ attrs =>
      match lookup "text" attrs with
      | Some t => print (Stdout (py_str t))
      | None => s <- lift_sum (dumps_dict_or_self item) ;; print (Stdout s)
      end
  | _ => s <- lift_sum (dumps_dict_or_self item) ;; print (Stdout s)
  end.

(** The body of the [try] block: the [if args.list / elif
    args.describe / elif args.call / else] chain. *)
Definition dispatch (a : Namespace) : M (W:=W) unit :=
  if arg_list a then
    tools <- list_tools mcp ;;
    s <- lift_sum (json_dumps tools) ;;
    print (Stdout s)
  else if given (arg_describe a) then
    let tool_name := match arg_describe a with Some s => s | None => "" end in
    schema <- describe_tool mcp tool_name ;;
    if truthy schema then
      s <- lift_sum (json_dumps schema) ;;
      print (Stdout s)
    else
      print (Stderr ("Tool not found: " ++ tool_name)) ;;;
      sys_exit 1
  else if given (arg_call a) then
    let text := match arg_call a with Some s => s | None => "" end in
    call_data <- lift_sum (json_loads text) ;;
    tool <- lift_result (subscript call_data "tool") ;;
    arguments <- lift_result (dict_get call_data "arguments" (VDict [])) ;;
    result <- call_tool mcp tool arguments ;;
    match result with
    | VList items => for_each print_item items
    | _ => s <- lift_sum (dumps_dict_or_self result) ;; print (Stdout s)
    end
  else
    print (Stdout help_text).

(** The [except Exception as e] handler. *)
Definition on_exception (e : pyerror) : M (W:=W) unit :=
  print (Stderr ("Error: " ++ err_msg e)) ;;;
  print (Stderr (format_exc e)) ;;;
  sys_exit 1.

(** [main], from the parsed arguments on.  [config_file] is the text of
    [mcp-config.json], [None] when the file does not exist. *)
Definition main (a : Namespace) (HAS_MCP : bool) (config_file : option string) (w : W)
  : process :=
  match config_file with
  | None =>
      mk_process (Raise (SystemExit 1))
                 [Stderr ("Error: Configuration file not found: " ++ config_path)] []
  | Some text =>
      match json_loads text with
      | inl e => mk_process (Raise (Error e)) [] []
      | inr config =>
          if negb HAS_MCP then
            mk_process (Raise (SystemExit 1))
                       [Stderr "Error: mcp package not installed";
                        Stderr "Install with: pip install mcp"] []
          else
            match MCPExecutor_init HAS_MCP config with
            | Raise e => mk_process (Raise e) [] []
            | Ok executor =>
                let '(r, st) :=
                  try_finally (try_except_Exception (dispatch a) on_exception)
                              (close mcp)
                              (mk_state executor w [] []) in
                mk_process r (console st) (trace st)
            end
      end
  end.

(** Module import followed by [asyncio.run(main())]: the warning
    printed when the package cannot be imported, then [main]; an
    exception that leaves [main] ends the interpreter with its
    traceback and status 1, [SystemExit] with the status it carries. *)
Definition run_script (a : Namespace) (HAS_MCP : bool) (config_file : option string) (w : W)
  : Z * list line :=
  let imported :=
    if HAS_MCP then []
    else [Stderr "Warning: mcp package not installed. Install with: pip install mcp"] in
  let p := main a HAS_MCP config_file w in
  match outcome p with
  | Ok _ => (0%Z, imported ++ output p)
  | Raise (SystemExit code) => (code, imported ++ output p)
  | Raise (Error e) => (1%Z, imported ++ output p ++ [Stderr (format_exc e)])
  end.

End Main.

(** ** The three operations as one type, and whole sessions of use *)

Inductive op : Type :=
| OpList
| OpDescribe (tool_name : string)
| OpCall (tool_name arguments : value).

Definition run_op {W : Type} (mcp : MCP W) (o : op) : M (W:=W) value :=
  match o with
  | OpList => list_tools mcp
  | OpDescribe n => describe_tool mcp n
  | OpCall n a => call_tool mcp n a
  end.

(** A caller's step: one of the operations, or [close]. *)
Inductive api : Type :=
| Use (o : op)
| Close.

Definition step {W : Type} (mcp : MCP W) (a : api) (st : state W) : state W :=
  match a with
  | Use o => snd (run_op mcp o st)
  | Close => snd (close mcp st)
  end.

(** A caller's whole use of one executor; a raised exception is the
    caller's to handle and does not stop the caller from going on. *)
Definition run_all {W : Type} (mcp : MCP W) (steps : list api) (st : state W) : state W :=
  fold_left (fun acc a => step mcp a acc) steps st.

(** A fresh executor, as [MCPExecutor(config)] leaves it. *)
Definition fresh {W : Type} (config : value) (w : W) : state W :=
  mk_state (mk_executor config None None) w [] [].

(** ** Reading the trace *)

Definition is_connect (ev : event) : bool :=
  match ev with EvConnect => true | _ => false end.

Definition is_spawn (ev : event) : bool :=
  match ev with EvStdioClient _ => true | _ => false end.

Definition is_new_session (ev : event) : bool :=
  match ev with EvClientSession _ => true | _ => false end.

Definition is_handshake (ev : event) : bool :=
  match ev with EvInitialize _ => true | _ => false end.

Definition count (p : event -> bool) (tr : list event) : nat :=
  length (filter p tr).

(** ** A concrete server

    The echo server of the end-to-end example: one tool, [ping].  The
    world is the next free stream number.  A call to an unknown tool is
    answered at the tool level: a protocol-success reply whose
    [isError] flag is set. *)

Definition text_content (s : string) : value :=
  VObj "TextContent" [("type", VStr "text"); ("text", VStr s)].

Definition ping : Tool := mk_tool "ping" (VStr "replies pong") (VDict []).

Definition echo_server : MCP nat :=
  mk_mcp nat
    (fun _ n => (inr (n, S n), S (S n)))
    (fun _ n => (inr tt, n))
    (fun _ n => (inr (mk_listing [ping]), n))
    (fun _ tool_name _ n =>
       match tool_name with
       | VStr "ping" => (inr (mk_call_result (VList [text_content "pong"]) false), n)
       | _ => (inr (mk_call_result (VList [text_content "Unknown tool"]) true), n)
       end)
    (fun _ n => (inr tt, n)).

Definition echo_config : value :=
  VDict [("command", VStr "echo-server"); ("args", VList [])].

(** A server that lists two tools under one name, and one whose
    replies cannot be decoded. *)
Definition twin_server : MCP nat :=
  mk_mcp nat
    (fun _ n => (inr (n, S n), S (S n)))
    (fun _ n => (inr tt, n))
    (fun _ n => (inr (mk_listing [mk_tool "a" (VStr "first") (VDict [("type", VStr "object")]);
                                  mk_tool "b" (VStr "second") (VDict [("type", VStr "string")]);
                                  mk_tool "b" (VStr "third") (VDict [])]), n))
    (fun _ _ _ n => (inr (mk_call_result (VList []) false), n))
    (fun _ n => (inl (mk_error "BrokenPipeError" "peer has exited"), n)).

Definition garbled_server : MCP nat :=
  mk_mcp nat
    (fun _ n => (inr (n, S n), S (S n)))
    (fun _ n => (inr tt, n))
    (fun _ n => (inl (mk_error "ValidationError" "malformed list_tools response"), n))
    (fun _ _ _ n => (inl (mk_error "ValidationError" "malformed call_tool response"), n))
    (fun _ n => (inr tt, n)).

(** Two more servers: one that cannot be started, and one that starts
    and then fails the handshake. *)
Definition absent_server : MCP nat :=
  mk_mcp nat
    (fun _ n => (inl (mk_error "FileNotFoundError" "No such file or directory"), S n))
    (fun _ n => (inr tt, n))
    (fun _ n => (inr (mk_listing []), n))
    (fun _ _ _ n => (inr (mk_call_result (VList []) false), n))
    (fun _ n => (inr tt, n)).

Definition mute_server : MCP nat :=
  mk_mcp nat
    (fun _ n => (inr (n, S n), S (S n)))
    (fun _ n => (inl (mk_error "McpError" "Connection closed"), n))
    (fun _ n => (inr (mk_listing [ping]), n))
    (fun _ _ _ n => (inr (mk_call_result (VList []) false), n))
    (fun _ n => (inr tt, n)).

(** A server whose world counts what it was asked: two for a started
    transport (the two streams), one for each call on the session. *)
Definition ticking_server : MCP nat :=
  mk_mcp nat
    (fun _ n => (inr (n, S n), S (S n)))
    (fun _ n => (inr tt, S n))
    (fun _ n => (inr (mk_listing [ping]), S n))
    (fun _ _ _ n => (inr (mk_call_result (VList [text_content "pong"]) false), S n))
    (fun _ n => (inr tt, S n)).

(** A host for [main]: a [json] module that knows two texts, and no
    more of [json.dumps] and [str] than the examples need. *)
Definition host_json_loads (text : string) : pyerror + value :=
  if String.eqb text "{echo}" then inr echo_config
  else if String.eqb text "{call missing}" then inr (VDict [("tool", VStr "missing")])
  else inl (mk_error "JSONDecodeError" "Expecting value: line 1 column 1 (char 0)").

Definition host_json_dumps (v : value) : pyerror + string :=
  match v with
  | VObj _ _ => inl (mk_error "TypeError" "Object is not JSON serializable")
  | _ => inr "<json>"
  end.

Definition host_str (v : value) : string :=
  match v with VStr s => s | _ => "<str>" end.

Definition host_format_exc (e : pyerror) : string :=
  "Traceback (most recent call last): " ++ err_class e.

(** The echo server, before and after the first connection. *)
Definition echo_fresh : state nat := fresh echo_config 0.
Definition echo_ready : state nat := snd (connect echo_server echo_fresh).
Definition echo_session : ClientSession := mk_session 0 1.

(** The twin server: tools [a], [b], [b]. *)
Definition twin_ready : state nat := snd (connect twin_server echo_fresh).

Definition twin_listing : ListToolsResult :=
  mk_listing [mk_tool "a" (VStr "first") (VDict [("type", VStr "object")]);
              mk_tool "b" (VStr "second") (VDict [("type", VStr "string")]);
              mk_tool "b" (VStr "third") (VDict [])].

(** * Properties *)

Lemma count_app (p : event -> bool) (a b : list event) :
  count p (a ++ b) = count p a + count p b.
Proof.
  unfold count. rewrite filter_app, length_app. reflexivity.
Qed.

Section Facade.

Context {W : Type}.
Variable mcp : MCP W.

(** ** What [connect] does, case by case *)

(** The three ways [connect] can end: the launch parameters cannot be
    read from the configuration, the transport cannot be started, or
    the session object is stored and the handshake is sent (and then
    succeeds or not, with the session stored either way). *)
Inductive connect_spec (st : state W) : result unit * state W -> Prop :=
| connect_no_params (e : exn) :
    server_params_of (server_config (self st)) = Raise e ->
    connect_spec st
      (Raise e, mk_state (self st) (world st) (trace st ++ [EvConnect]) (console st))
| connect_no_transport (p : StdioServerParameters) (e : pyerror) (w1 : W) :
    server_params_of (server_config (self st)) = Ok p ->
    stdio_client mcp p (world st) = (inl e, w1) ->
    connect_spec st
      (Raise (Error e),
       mk_state (self st) w1 (trace st ++ [EvConnect; EvStdioClient p]) (console st))
| connect_handshake (p : StdioServerParameters) (rd wr : stream) (w1 w2 : W)
                    (r : pyerror + unit) :
    server_params_of (server_config (self st)) = Ok p ->
    stdio_client mcp p (world st) = (inr (rd, wr), w1) ->
    session_initialize mcp (mk_session rd wr) w1 = (r, w2) ->
    connect_spec st
      (match r with inr _ => Ok tt | inl e => Raise (Error e) end,
       mk_state (mk_executor (server_config (self st))
                             (Some (mk_session rd wr)) (Some (rd, wr)))
                w2
                (trace st ++ [EvConnect; EvStdioClient p;
                              EvClientSession (mk_session rd wr);
                              EvInitialize (mk_session rd wr)])
                (console st)).

Lemma connect_cases (st : state W) : connect_spec st (connect mcp st).
Proof.
  unfold connect, bind, log, get_self, lift_result, set_self, await. simpl.
  destruct (server_params_of (server_config (self st))) as [p | e] eqn:Hp.
  - simpl. destruct (stdio_client mcp p (world st)) as [[e | [rd wr]] w1] eqn:Hs.
    + rewrite <- app_assoc. simpl. now apply connect_no_transport.
    + simpl.
      destruct (session_initialize mcp (mk_session rd wr) w1) as [r w2] eqn:Hi.
      repeat rewrite <- app_assoc. simpl.
      pose proof (connect_handshake st p rd wr w1 w2 r Hp Hs Hi) as H.
      destruct r as [e | []]; exact H.
  - now apply connect_no_params.
Qed.

(** [connect] returns normally only with a session stored. *)
Lemma connect_ok_session (st st' : state W) :
  connect mcp st = (Ok tt, st') -> exists s, session (self st') = Some s.
Proof.
  intros H. pose proof (connect_cases st) as C. rewrite H in C.
  inversion C as [e He | p e w1 Hp Hs | p rd wr w1 w2 r Hp Hs Hi Hr]; subst.
  exists (mk_session rd wr). reflexivity.
Qed.

(** ** Reaching a session: already there, or by the lazy connect *)

(** [via st st_c s]: an operation started in [st] issues its request
    from [st_c] on session [s]. *)
Definition via (st st_c : state W) (s : ClientSession) : Prop :=
  session (self st_c) = Some s /\
  (st_c = st \/ (session (self st) = None /\ connect mcp st = (Ok tt, st_c))).

Lemma list_tools_via (st st_c : state W) (s : ClientSession) :
  via st st_c s ->
  list_tools mcp st =
  bind (await (EvListTools s) (session_list_tools mcp s))
       (fun response =>
          ret (VList (map (fun tool =>
                             VDict [("name", VStr (name tool));
                                    ("description", description tool)])
                          (tools response)))) st_c.
Proof.
  intros [Hs [-> | [Hn Hc]]]; unfold list_tools, the_session, get_self, bind at 1 2 3 4.
  - rewrite Hs. unfold ret at 1. simpl. rewrite Hs. reflexivity.
  - rewrite Hn, Hc. simpl. rewrite Hs. reflexivity.
Qed.

Lemma describe_tool_via (q : string) (st st_c : state W) (s : ClientSession) :
  via st st_c s ->
  describe_tool mcp q st =
  bind (await (EvListTools s) (session_list_tools mcp s))
       (fun response => ret (scan_tools q (tools response))) st_c.
Proof.
  intros [Hs [-> | [Hn Hc]]]; unfold describe_tool, the_session, get_self, bind at 1 2 3 4.
  - rewrite Hs. unfold ret at 1. simpl. rewrite Hs. reflexivity.
  - rewrite Hn, Hc. simpl. rewrite Hs. reflexivity.
Qed.

Lemma call_tool_via (n a : value) (st st_c : state W) (s : ClientSession) :
  via st st_c s ->
  call_tool mcp n a st =
  bind (await (EvCallTool s n a) (session_call_tool mcp s n a))
       (fun response => ret (content response)) st_c.
Proof.
  intros [Hs [-> | [Hn Hc]]]; unfold call_tool, the_session, get_self, bind at 1 2 3 4.
  - rewrite Hs. unfold ret at 1. simpl. rewrite Hs. reflexivity.
  - rewrite Hn, Hc. simpl. rewrite Hs. reflexivity.
Qed.

(** ** One operation, from a facade with and without a session *)

(** The request events: a listing or a call on session [s]. *)
Definition request_on (s : ClientSession) (ev : event) : Prop :=
  match ev with
  | EvListTools s' => s' = s
  | EvCallTool s' _ _ => s' = s
  | _ => False
  end.

Lemma request_not_counted (s : ClientSession) (ev : event) :
  request_on s ev ->
  is_connect ev = false /\ is_spawn ev = false /\
  is_new_session ev = false /\ is_handshake ev = false.
Proof.
  destruct ev; simpl; intros H; try contradiction; repeat split.
Qed.

(** With a session stored, an operation is one request on that session
    and nothing else; the executor object is left as it was. *)
Lemma run_op_ready (o : op) (st : state W) (s : ClientSession) :
  session (self st) = Some s ->
  exists ev, request_on s ev /\
             trace (snd (run_op mcp o st)) = trace st ++ [ev] /\
             self (snd (run_op mcp o st)) = self st.
Proof.
  intros Hs.
  assert (Hv : via st st s) by (split; [exact Hs | now left]).
  destruct o as [| q | n a]; simpl.
  - rewrite (list_tools_via st st s Hv). unfold bind, await.
    destruct (session_list_tools mcp s (world st)) as [[e | resp] w1];
      exists (EvListTools s); simpl; auto.
  - rewrite (describe_tool_via q st st s Hv). unfold bind, await.
    destruct (session_list_tools mcp s (world st)) as [[e | resp] w1];
      exists (EvListTools s); simpl; auto.
  - rewrite (call_tool_via n a st st s Hv). unfold bind, await.
    destruct (session_call_tool mcp s n a (world st)) as [[e | resp] w1];
      exists (EvCallTool s n a); simpl; auto.
Qed.

(** Without a session, an operation is [connect] and then, if that
    returned, the same operation on the session just stored. *)
Lemma run_op_lazy (o : op) (st : state W) :
  session (self st) = None ->
  run_op mcp o st =
  match connect mcp st with
  | (Ok _, st') => run_op mcp o st'
  | (Raise e, st') => (Raise e, st')
  end.
Proof.
  intros Hn.
  destruct (connect mcp st) as [[[] | e] st'] eqn:Hc.
  - destruct (connect_ok_session st st' Hc) as [s Hs].
    destruct o; simpl;
      unfold list_tools, describe_tool, call_tool, bind at 1 2, get_self;
      rewrite Hn, Hc; unfold bind at 3 4; rewrite Hs; reflexivity.
  - destruct o; simpl;
      unfold list_tools, describe_tool, call_tool, bind at 1 2, get_self;
      rewrite Hn, Hc; reflexivity.
Qed.

(** What one operation on a facade without a session adds to the
    trace: the entry into [connect], then at most one of each call of
    the connection sequence, and a handshake exactly when a session
    object has been stored. *)
Lemma run_op_unconnected (o : op) (st : state W) :
  session (self st) = None ->
  exists evs,
    trace (snd (run_op mcp o st)) = trace st ++ EvConnect :: evs /\
    count is_connect evs = 0 /\
    count is_spawn evs <= 1 /\
    count is_new_session evs = count is_handshake evs /\
    count is_handshake evs =
      match session (self (snd (run_op mcp o st))) with Some _ => 1 | None => 0 end /\
    (is_ok (fst (run_op mcp o st)) = true ->
     session (self (snd (run_op mcp o st))) <> None).
Proof.
  intros Hn. rewrite (run_op_lazy o st Hn).
  pose proof (connect_cases st) as C.
  inversion C as [e He Hc | p e w1 Hp Hs Hc | p rd wr w1 w2 r Hp Hs Hi Hc].
  - exists []. simpl. rewrite Hn. repeat split; auto; discriminate.
  - exists [EvStdioClient p]. simpl. rewrite Hn. repeat split; auto; discriminate.
  - destruct r as [e | []].
    + exists [EvStdioClient p; EvClientSession (mk_session rd wr);
              EvInitialize (mk_session rd wr)].
      simpl. repeat split; auto; discriminate.
    + match goal with
      | |- context [run_op mcp o ?s1] =>
          destruct (run_op_ready o s1 (mk_session rd wr) eq_refl)
            as (ev & Hev & Htr & Hself)
      end.
      destruct (request_not_counted _ _ Hev) as (E1 & E2 & E3 & E4).
      exists [EvStdioClient p; EvClientSession (mk_session rd wr);
              EvInitialize (mk_session rd wr); ev].
      rewrite Htr, Hself. simpl. rewrite <- app_assoc. simpl.
      unfold count. simpl. rewrite E1, E2, E3, E4. simpl.
      repeat split; auto; discriminate.
Qed.

(** ** [close] *)

Lemma close_spec (st : state W) :
  fst (close mcp st) = Ok tt /\
  self (snd (close mcp st)) = self st /\
  trace (snd (close mcp st)) =
    trace st ++ match session (self st) with Some s => [EvAexit s] | None => [] end.
Proof.
  unfold close, bind, get_self, try_except_pass, await, ret.
  destruct (session (self st)) as [s |].
  - destruct (session_aexit mcp s (world st)) as [[e | []] w1]; simpl; auto.
  - simpl. rewrite app_nil_r. auto.
Qed.

(** ** The scan of [describe_tool] *)

Definition full_descriptor (tool : Tool) : value :=
  VDict [("name", VStr (name tool));
         ("description", description tool);
         ("inputSchema", inputSchema tool)].

Lemma scan_tools_first (q : string) (before : list Tool) (t : Tool) (rest : list Tool) :
  (forall u, In u before -> name u <> q) ->
  name t = q ->
  scan_tools q (before ++ t :: rest) = full_descriptor t.
Proof.
  intros Hb Ht. induction before as [| u before IH]; simpl.
  - rewrite Ht, String.eqb_refl. subst q. reflexivity.
  - destruct (String.eqb_spec (name u) q) as [E | _].
    + exfalso. apply (Hb u); [now left | exact E].
    + apply IH. intros v Hv. apply Hb. now right.
Qed.

Lemma scan_tools_none (q : string) (ts : list Tool) :
  (forall t, In t ts -> name t <> q) -> scan_tools q ts = VNone.
Proof.
  induction ts as [| u ts IH]; simpl; intros H; [reflexivity |].
  destruct (String.eqb_spec (name u) q) as [E | _].
  - exfalso. apply (H u); [now left | exact E].
  - apply IH. intros t Ht. apply H. now right.
Qed.

Lemma first_match_split (q : string) (ts : list Tool) :
  (exists t, In t ts /\ name t = q) ->
  exists before t rest,
    ts = before ++ t :: rest /\ (forall u, In u before -> name u <> q) /\ name t = q.
Proof.
  induction ts as [| u ts IH]; intros (t & Hin & Ht).
  - destruct Hin.
  - destruct (String.eqb_spec (name u) q) as [E | N].
    + exists [], u, ts. repeat split; auto.
    + destruct Hin as [-> | Hin]; [contradiction |].
      destruct IH as (before & t' & rest & -> & Hb & Ht'); [now exists t |].
      exists (u :: before), t', rest. repeat split; auto.
      intros v [<- | Hv]; auto.
Qed.

(** ** The calls behind the trace *)

(** [connect] in [st] starts the transport with parameters [p]: what
    [connect] returns, the state it leaves and the session it stores
    are those that the answers of [stdio_client] to [p] and of
    [initialize] on the returned streams determine. *)
Definition starts_transport (st : state W) (p : StdioServerParameters) : Prop :=
  (forall (e : pyerror) (w1 : W),
      stdio_client mcp p (world st) = (inl e, w1) ->
      connect mcp st =
      (Raise (Error e),
       mk_state (self st) w1 (trace st ++ [EvConnect; EvStdioClient p]) (console st))) /\
  (forall (rd wr : stream) (w1 w2 : W) (r : pyerror + unit),
      stdio_client mcp p (world st) = (inr (rd, wr), w1) ->
      session_initialize mcp (mk_session rd wr) w1 = (r, w2) ->
      connect mcp st =
      (match r with inr _ => Ok tt | inl e => Raise (Error e) end,
       mk_state (mk_executor (server_config (self st))
                             (Some (mk_session rd wr)) (Some (rd, wr)))
                w2
                (trace st ++ [EvConnect; EvStdioClient p;
                              EvClientSession (mk_session rd wr);
                              EvInitialize (mk_session rd wr)])
                (console st))).

Lemma connect_starts_transport (st : state W) (p : StdioServerParameters) :
  server_params_of (server_config (self st)) = Ok p -> starts_transport st p.
Proof.
  intros Hp. pose proof (connect_cases st) as C. split.
  - intros e w1 Hs.
    inversion C as [x Hx Hc | p' x w1' Hp' Hs' Hc | p' rd wr w1' w2 r Hp' Hs' Hi Hc];
      congruence.
  - intros rd wr w1 w2 r Hs Hi.
    inversion C as [x Hx Hc | p' x w1' Hp' Hs' Hc | p' rd' wr' w1' w2' r' Hp' Hs' Hi' Hc];
      try congruence.
    assert (p' = p) by congruence. subst p'.
    assert (rd' = rd /\ wr' = wr /\ w1' = w1) as (-> & -> & ->)
        by (repeat split; congruence).
    assert (r' = r /\ w2' = w2) as (-> & ->) by (split; congruence).
    reflexivity.
Qed.

(** The world after the one request of operation [o] on session [s],
    sent from world [w]. *)
Definition request_world (o : op) (s : ClientSession) (w : W) : W :=
  match o with
  | OpList => snd (session_list_tools mcp s w)
  | OpDescribe _ => snd (session_list_tools mcp s w)
  | OpCall n a => snd (session_call_tool mcp s n a w)
  end.

Lemma run_op_ready_world (o : op) (st : state W) (s : ClientSession) :
  session (self st) = Some s ->
  world (snd (run_op mcp o st)) = request_world o s (world st).
Proof.
  intros Hs.
  assert (Hv : via st st s) by (split; [exact Hs | now left]).
  destruct o as [| q | n a]; simpl.
  - rewrite (list_tools_via st st s Hv). unfold bind, await.
    destruct (session_list_tools mcp s (world st)) as [[e | resp] w1]; reflexivity.
  - rewrite (describe_tool_via q st st s Hv). unfold bind, await.
    destruct (session_list_tools mcp s (world st)) as [[e | resp] w1]; reflexivity.
  - rewrite (call_tool_via n a st st s Hv). unfold bind, await.
    destruct (session_call_tool mcp s n a (world st)) as [[e | resp] w1]; reflexivity.
Qed.

(** ** At most one session per facade *)

(** The invariant kept by every caller's step: at most one
    [ClientSession] has been constructed, and none while the executor
    holds no session. *)
Definition one_session (st : state W) : Prop :=
  count is_new_session (trace st) <= 1 /\
  (session (self st) = None -> count is_new_session (trace st) = 0).

Lemma step_one_session (a : api) (st : state W) :
  one_session st -> one_session (step mcp a st).
Proof.
  intros [Hle Hnone]. destruct a as [o |]; simpl.
  - destruct (session (self st)) as [s |] eqn:Hs.
    + destruct (run_op_ready o st s Hs) as (ev & Hev & Htr & Hself).
      destruct (request_not_counted _ _ Hev) as (_ & _ & E & _).
      unfold one_session. rewrite Htr, Hself, Hs, count_app.
      unfold count at 2 4. simpl. rewrite E. simpl.
      split; [lia | discriminate].
    + destruct (run_op_unconnected o st Hs) as (evs & Htr & _ & _ & Hns & Hh & _).
      unfold one_session. rewrite Htr, count_app, (Hnone eq_refl).
      replace (count is_new_session (EvConnect :: evs)) with (count is_new_session evs)
        by reflexivity.
      rewrite Hns, Hh.
      destruct (session (self (snd (run_op mcp o st)))); split; auto; discriminate.
  - destruct (close_spec st) as (_ & Hself & Htr).
    unfold one_session. rewrite Htr, Hself, count_app.
    replace (count is_new_session
               match session (self st) with Some s => [EvAexit s] | None => [] end)
      with 0 by (destruct (session (self st)); reflexivity).
    rewrite Nat.add_0_r. split; assumption.
Qed.

Lemma run_all_one_session (steps : list api) (st : state W) :
  one_session st -> one_session (run_all mcp steps st).
Proof.
  revert st. induction steps as [| a steps IH]; intros st H; simpl.
  - exact H.
  - apply IH, step_one_session, H.
Qed.

(** ** The claims about the facade *)

(** C1, as the code has it.  On an executor that holds no session,
    any one of [list_tools], [describe_tool] and [call_tool] enters
    [connect] exactly once.  What follows is decided by the calls
    [connect] makes: when the launch parameters cannot be built, or
    [stdio_client] raises, the error is raised, no handshake is sent
    and the executor stays without a session; when [stdio_client]
    returns its two streams, [initialize] is called exactly once, on
    the session built on those streams, and the operation goes on
    from the state the handshake left only if it returned.  A second
    operation on an executor that holds a session enters [connect] no
    more, starts no transport and sends no handshake: its one call is
    its own request on that session. *)
Theorem lazy_connect_first_use (o : op) (st : state W) :
  session (self st) = None ->
  count is_connect (trace (snd (run_op mcp o st))) = count is_connect (trace st) + 1 /\
  (forall x : exn,
      server_params_of (server_config (self st)) = Raise x ->
      run_op mcp o st =
      (Raise x, mk_state (self st) (world st) (trace st ++ [EvConnect]) (console st))) /\
  (forall (p : StdioServerParameters) (e : pyerror) (w1 : W),
      server_params_of (server_config (self st)) = Ok p ->
      stdio_client mcp p (world st) = (inl e, w1) ->
      run_op mcp o st =
      (Raise (Error e),
       mk_state (self st) w1 (trace st ++ [EvConnect; EvStdioClient p]) (console st))) /\
  (forall (p : StdioServerParameters) (rd wr : stream) (w1 w2 : W) (r : pyerror + unit),
      server_params_of (server_config (self st)) = Ok p ->
      stdio_client mcp p (world st) = (inr (rd, wr), w1) ->
      session_initialize mcp (mk_session rd wr) w1 = (r, w2) ->
      let s := mk_session rd wr in
      let st_c :=
        mk_state (mk_executor (server_config (self st)) (Some s) (Some (rd, wr)))
                 w2
                 (trace st ++ [EvConnect; EvStdioClient p;
                               EvClientSession s; EvInitialize s])
                 (console st) in
      run_op mcp o st =
        match r with
        | inl e => (Raise (Error e), st_c)
        | inr _ => run_op mcp o st_c
        end /\
      count is_handshake (trace (snd (run_op mcp o st))) =
        count is_handshake (trace st) + 1) /\
  (forall (st1 : state W) (s : ClientSession) (o2 : op),
      session (self st1) = Some s ->
      (exists ev, request_on s ev /\
                  trace (snd (run_op mcp o2 st1)) = trace st1 ++ [ev]) /\
      self (snd (run_op mcp o2 st1)) = self st1 /\
      world (snd (run_op mcp o2 st1)) = request_world o2 s (world st1) /\
      count is_connect (trace (snd (run_op mcp o2 st1))) = count is_connect (trace st1) /\
      count is_spawn (trace (snd (run_op mcp o2 st1))) = count is_spawn (trace st1) /\
      count is_handshake (trace (snd (run_op mcp o2 st1))) =
        count is_handshake (trace st1)).
Proof.
  intros Hn.
  assert (Hready : forall (st1 : state W) (s : ClientSession) (o2 : op),
             session (self st1) = Some s ->
             (exists ev, request_on s ev /\
                         trace (snd (run_op mcp o2 st1)) = trace st1 ++ [ev]) /\
             self (snd (run_op mcp o2 st1)) = self st1 /\
             world (snd (run_op mcp o2 st1)) = request_world o2 s (world st1) /\
             count is_connect (trace (snd (run_op mcp o2 st1))) =
               count is_connect (trace st1) /\
             count is_spawn (trace (snd (run_op mcp o2 st1))) = count is_spawn (trace st1) /\
             count is_handshake (trace (snd (run_op mcp o2 st1))) =
               count is_handshake (trace st1)).
  { intros st1 s o2 Hs.
    destruct (run_op_ready o2 st1 s Hs) as (ev & Hev & Htr & Hself).
    destruct (request_not_counted _ _ Hev) as (E1 & E2 & _ & E4).
    split; [now exists ev |]. split; [exact Hself |].
    split; [now apply run_op_ready_world |].
    repeat split; rewrite Htr, count_app; unfold count at 2; simpl;
      rewrite ?E1, ?E2, ?E4; simpl; lia. }
  split.
  { destruct (run_op_unconnected o st Hn) as (evs & Htr & Hc & _).
    rewrite Htr, count_app. unfold count in *. simpl. lia. }
  split.
  { intros x Hx. rewrite (run_op_lazy o st Hn).
    pose proof (connect_cases st) as C.
    inversion C as [x' Hx' Hc | p' x' w1' Hp' Hs' Hc | p' rd wr w1' w2 r Hp' Hs' Hi Hc];
      congruence. }
  split.
  { intros p e w1 Hp Hs. rewrite (run_op_lazy o st Hn).
    destruct (connect_starts_transport st p Hp) as [Hfail _].
    now rewrite (Hfail e w1 Hs). }
  split; [| exact Hready].
  intros p rd wr w1 w2 r Hp Hs Hi s st_c.
  rewrite (run_op_lazy o st Hn).
  destruct (connect_starts_transport st p Hp) as [_ Hstart].
  rewrite (Hstart rd wr w1 w2 r Hs Hi). fold s. fold st_c.
  destruct r as [e | []].
  - split; [reflexivity |]. simpl. rewrite count_app. reflexivity.
  - split; [reflexivity |].
    destruct (Hready st_c s o eq_refl) as (_ & _ & _ & _ & _ & H).
    rewrite H. unfold st_c. simpl. rewrite count_app. reflexivity.
Qed.

(** C6.  [close] never raises, whatever the state of the executor:
    never connected, connected, or closed before; whatever the
    teardown raises is swallowed. *)
Theorem close_never_raises (st : state W) :
  fst (close mcp st) = Ok tt /\
  fst (close mcp (snd (close mcp st))) = Ok tt /\
  forall (config : value) (w : W),
    close mcp (fresh config w) = (Ok tt, fresh config w).
Proof.
  repeat split; try apply close_spec.
Qed.

(** C7.  [list_tools] turns the [list_tools] response into a list of
    the same length whose i-th element is made from the i-th tool of
    the response: a mapping with exactly the keys [name] and
    [description], holding that tool's name and description, and no
    [inputSchema]. *)
Theorem list_tools_maps_in_order
        (st st_c : state W) (s : ClientSession) (resp : ListToolsResult) (w1 : W) :
  via st st_c s ->
  session_list_tools mcp s (world st_c) = (inr resp, w1) ->
  exists ds,
    fst (list_tools mcp st) = Ok (VList ds) /\
    length ds = length (tools resp) /\
    forall (i : nat) (tool : Tool),
      nth_error (tools resp) i = Some tool ->
      exists d,
        nth_error ds i = Some (VDict d) /\
        map fst d = ["name"; "description"] /\
        lookup "name" d = Some (VStr (name tool)) /\
        lookup "description" d = Some (description tool) /\
        lookup "inputSchema" d = None.
Proof.
  intros Hv Hl. rewrite (list_tools_via st st_c s Hv).
  unfold bind, await. rewrite Hl. simpl.
  eexists. split; [reflexivity |]. split; [apply length_map |].
  intros i tool Hi.
  exists [("name", VStr (name tool)); ("description", description tool)].
  rewrite nth_error_map, Hi. simpl. repeat split.
Qed.

(** C5.  [describe_tool] sends one full [list_tools] request and scans
    the listing for a tool whose name equals the queried name as a
    string (exactly, so case matters): when there is one, the result
    is the mapping of name, description and inputSchema of a tool of
    the listing that bears the name; when there is none, the result is
    [None], returned and not raised. *)
Theorem describe_tool_by_exact_name
        (q : string) (st st_c : state W) (s : ClientSession)
        (resp : ListToolsResult) (w1 : W) :
  via st st_c s ->
  session_list_tools mcp s (world st_c) = (inr resp, w1) ->
  trace (snd (describe_tool mcp q st)) = trace st_c ++ [EvListTools s] /\
  is_ok (fst (describe_tool mcp q st)) = true /\
  ((exists t, In t (tools resp) /\ name t = q) ->
   exists t, In t (tools resp) /\ name t = q /\
             fst (describe_tool mcp q st) = Ok (full_descriptor t)) /\
  ((forall t, In t (tools resp) -> name t <> q) ->
   fst (describe_tool mcp q st) = Ok VNone).
Proof.
  intros Hv Hl. rewrite (describe_tool_via q st st_c s Hv).
  unfold bind, await. rewrite Hl. simpl. repeat split.
  - intros Hex.
    destruct (first_match_split q (tools resp) Hex) as (before & t & rest & E & Hb & Ht).
    exists t. rewrite E at 2. rewrite (scan_tools_first q before t rest Hb Ht).
    repeat split; auto. rewrite E. apply in_or_app. right. now left.
  - intros Hnone. now rewrite (scan_tools_none q (tools resp) Hnone).
Qed.

(** C10.  When several tools of the listing bear the queried name,
    [describe_tool] returns the descriptor of the first of them in the
    order of the response: the scan stops at the first tool whose name
    matches, whatever follows it. *)
Theorem describe_tool_first_match
        (q : string) (st st_c : state W) (s : ClientSession)
        (resp : ListToolsResult) (w1 : W)
        (before : list Tool) (t : Tool) (rest : list Tool) :
  via st st_c s ->
  session_list_tools mcp s (world st_c) = (inr resp, w1) ->
  tools resp = before ++ t :: rest ->
  (forall u, In u before -> name u <> q) ->
  name t = q ->
  fst (describe_tool mcp q st) = Ok (full_descriptor t).
Proof.
  intros Hv Hl E Hb Ht. rewrite (describe_tool_via q st st_c s Hv).
  unfold bind, await. rewrite Hl. simpl.
  now rewrite E, (scan_tools_first q before t rest Hb Ht).
Qed.

(** C2, as the code has it.  [call_tool] hands back the content of
    every reply the package delivers, whether or not the reply carries
    the remote tool's failure flag: the flag is not read and nothing
    is raised for it.  An exception raised by the package (a reply it
    cannot decode) reaches the caller unchanged.  So a caller can tell
    a failed exchange (raised) from a delivered reply (returned), and
    cannot tell a failed tool from a successful one that sent the same
    content. *)
Theorem call_tool_returns_content
        (n a : value) (st st_c : state W) (s : ClientSession) :
  via st st_c s ->
  (forall (c : value) (flag : bool) (w1 : W),
      session_call_tool mcp s n a (world st_c) = (inr (mk_call_result c flag), w1) ->
      fst (call_tool mcp n a st) = Ok c) /\
  (forall (e : pyerror) (w1 : W),
      session_call_tool mcp s n a (world st_c) = (inl e, w1) ->
      fst (call_tool mcp n a st) = Raise (Error e)).
Proof.
  intros Hv. rewrite (call_tool_via n a st st_c s Hv). unfold bind, await.
  split; [intros c flag w1 H | intros e w1 H]; rewrite H; reflexivity.
Qed.

(** C3, as the code has it.  [close] leaves the session stored in the
    executor, so an operation after [close] finds it, does not enter
    [connect], sends no handshake, and issues its request on that same
    session. *)
Theorem session_kept_after_close (o : op) (st : state W) (s : ClientSession) :
  session (self st) = Some s ->
  let st1 := snd (close mcp st) in
  let st2 := snd (run_op mcp o st1) in
  session (self st1) = Some s /\
  (exists ev, request_on s ev /\ trace st2 = trace st1 ++ [ev]) /\
  count is_connect (trace st2) = count is_connect (trace st1) /\
  count is_handshake (trace st2) = count is_handshake (trace st1).
Proof.
  intros Hs st1 st2.
  assert (Hs1 : session (self st1) = Some s).
  { unfold st1. destruct (close_spec st) as (_ & -> & _). exact Hs. }
  destruct (run_op_ready o st1 s Hs1) as (ev & Hev & Htr & _). fold st2 in Htr.
  destruct (request_not_counted _ _ Hev) as (E1 & _ & _ & E4).
  repeat split; auto.
  - now exists ev.
  - rewrite Htr, count_app. unfold count at 2. simpl. rewrite E1. simpl. lia.
  - rewrite Htr, count_app. unfold count at 2. simpl. rewrite E4. simpl. lia.
Qed.

(** C4, as the code has it.  [connect] has no guard of its own: called
    on an executor that already holds a session it starts a transport
    again and, when that succeeds, stores a session on the new streams
    and sends a new handshake.  The guard is in the operations: on an
    executor that holds a session they start nothing and leave the
    executor as it is, and over any sequence of operations and closes
    on a fresh executor at most one session is ever constructed. *)
Theorem connect_unguarded_operations_guarded
        (st : state W) (s : ClientSession) (p : StdioServerParameters) :
  session (self st) = Some s ->
  server_params_of (server_config (self st)) = Ok p ->
  count is_spawn (trace (snd (connect mcp st))) = count is_spawn (trace st) + 1 /\
  (forall (rd wr : stream) (w1 : W),
      stdio_client mcp p (world st) = (inr (rd, wr), w1) ->
      session (self (snd (connect mcp st))) = Some (mk_session rd wr) /\
      count is_handshake (trace (snd (connect mcp st))) =
        count is_handshake (trace st) + 1) /\
  (forall o : op,
      self (snd (run_op mcp o st)) = self st /\
      count is_spawn (trace (snd (run_op mcp o st))) = count is_spawn (trace st) /\
      count is_handshake (trace (snd (run_op mcp o st))) =
        count is_handshake (trace st)) /\
  (forall (config : value) (w : W) (steps : list api),
      count is_new_session (trace (run_all mcp steps (fresh config w))) <= 1).
Proof.
  intros Hs Hp.
  pose proof (connect_cases st) as C.
  repeat split.
  - inversion C as [e He Hc | p' e w1 Hp' Hsp Hc | p' rd wr w1 w2 r Hp' Hsp Hi Hc];
      try congruence; simpl; rewrite count_app; reflexivity.
  - inversion C as [e He Hc | p' e w1' Hp' Hsp Hc | p' rd' wr' w1' w2 r Hp' Hsp Hi Hc];
      try congruence; simpl.
    assert (p' = p) by congruence. subst p'. congruence.
  - inversion C as [e He Hc | p' e w1' Hp' Hsp Hc | p' rd' wr' w1' w2 r Hp' Hsp Hi Hc];
      try congruence; simpl.
    rewrite count_app. reflexivity.
  - destruct (run_op_ready o st s Hs) as (ev & _ & _ & Hself). exact Hself.
  - destruct (run_op_ready o st s Hs) as (ev & Hev & Htr & _).
    destruct (request_not_counted _ _ Hev) as (_ & E & _).
    rewrite Htr, count_app. unfold count at 2. simpl. rewrite E. simpl. lia.
  - destruct (run_op_ready o st s Hs) as (ev & Hev & Htr & _).
    destruct (request_not_counted _ _ Hev) as (_ & _ & _ & E).
    rewrite Htr, count_app. unfold count at 2. simpl. rewrite E. simpl. lia.
  - intros config w steps.
    refine (proj1 (run_all_one_session steps (fresh config w) _)).
    split; simpl; auto.
Qed.

(** C8.  For a launch configuration whose values have the types of
    the launch specification, [connect] hands the configuration to the
    transport as it stands: [stdio_client] is called with the command,
    the [args] entry when there is one, the [env] entry when there is
    one, and with [None] for [env] when it is absent, which is not the
    empty mapping; what [connect] does next is what [stdio_client]
    answers to exactly these parameters. *)
Theorem launch_spec_passed_verbatim
        (st : state W) (cfg : list (string * value)) (c : value) :
  server_config (self st) = VDict cfg ->
  lookup "command" cfg = Some c ->
  valid_command c = true ->
  valid_args (match lookup "args" cfg with Some a => a | None => VList [] end) = true ->
  valid_env (match lookup "env" cfg with Some e => e | None => VNone end) = true ->
  exists p,
    starts_transport st p /\
    (exists evs,
        trace (snd (connect mcp st)) = trace st ++ EvConnect :: EvStdioClient p :: evs /\
        count is_spawn evs = 0) /\
    command p = c /\
    (forall a, lookup "args" cfg = Some a -> args p = a) /\
    (forall e, lookup "env" cfg = Some e -> env p = e) /\
    (lookup "env" cfg = None -> env p = VNone /\ env p <> VDict []).
Proof.
  intros Hcfg Hc Vc Va Ve.
  set (p := mk_params c
              (match lookup "args" cfg with Some a => a | None => VList [] end)
              (match lookup "env" cfg with Some e => e | None => VNone end)).
  assert (Hp : server_params_of (server_config (self st)) = Ok p).
  { rewrite Hcfg. unfold server_params_of, subscript, dict_get. rewrite Hc.
    assert (E : StdioServerParameters_new (command p) (args p) (env p) = Ok p)
      by (unfold StdioServerParameters_new; simpl; now rewrite Vc, Va, Ve).
    unfold p in *. simpl in E.
    destruct (lookup "args" cfg), (lookup "env" cfg); exact E. }
  exists p. split; [now apply connect_starts_transport |]. split.
  { pose proof (connect_cases st) as C.
    inversion C as [e He Hr | p' e w1 Hp' Hsp Hr | p' rd wr w1 w2 r Hp' Hsp Hi Hr];
      try congruence; assert (p' = p) by congruence; subst p'.
    - exists []. simpl. auto.
    - exists [EvClientSession (mk_session rd wr); EvInitialize (mk_session rd wr)].
      simpl. auto. }
  unfold p. simpl. repeat split.
  - intros a Ha. now rewrite Ha.
  - intros e He. now rewrite He.
  - now rewrite H.
  - rewrite H. discriminate.
Qed.

End Facade.

(** ** The command line *)

Section Script.

Context {W : Type}.
Variable mcp : MCP W.
Variable config_path : string.
Variable json_loads : string -> pyerror + value.
Variable json_dumps : value -> pyerror + string.
Variable py_str : value -> string.
Variable format_exc : pyerror -> string.
Variable help_text : string.

(** *** Only [sys.exit] raises [SystemExit] *)

Definition no_exit {A : Type} (m : M (W:=W) A) : Prop :=
  forall st code, fst (m st) <> Raise (SystemExit code).

Lemma no_exit_ret {A : Type} (a : A) : no_exit (ret a).
Proof. intros st code. discriminate. Qed.

Lemma no_exit_bind {A B : Type} (m : M A) (k : A -> M B) :
  no_exit m -> (forall a, no_exit (k a)) -> no_exit (bind m k).
Proof.
  intros Hm Hk st code. unfold bind.
  destruct (m st) as [[a | e] st'] eqn:E.
  - apply Hk.
  - specialize (Hm st code). rewrite E in Hm. simpl in *.
    intros H. apply Hm. congruence.
Qed.

Lemma no_exit_await {A : Type} (ev : event) (f : W -> (pyerror + A) * W) :
  no_exit (await ev f).
Proof.
  intros st code. unfold await.
  destruct (f (world st)) as [[e | a] w1]; discriminate.
Qed.

Lemma no_exit_lift_sum {A : Type} (r : pyerror + A) : no_exit (lift_sum r).
Proof. intros st code. destruct r; discriminate. Qed.

Lemma no_exit_print (l : line) : no_exit (print (W:=W) l).
Proof. intros st code. discriminate. Qed.

Lemma no_exit_server_params (c : value) : no_exit (lift_result (server_params_of c)).
Proof.
  intros st code.
  unfold lift_result, server_params_of, subscript, dict_get, StdioServerParameters_new.
  simpl. destruct c; try discriminate.
  destruct (lookup "command" entries), (lookup "args" entries), (lookup "env" entries);
    try discriminate;
    match goal with |- context [if ?b then _ else _] => destruct b end; discriminate.
Qed.

Lemma no_exit_subscript (d : value) (k : string) : no_exit (lift_result (subscript d k)).
Proof.
  intros st code. unfold lift_result, subscript. simpl.
  destruct d; try discriminate. destruct (lookup k entries); discriminate.
Qed.

Lemma no_exit_dict_get (d : value) (k : string) (v : value) :
  no_exit (lift_result (dict_get d k v)).
Proof.
  intros st code. unfold lift_result, dict_get. simpl.
  destruct d; try discriminate. destruct (lookup k entries); discriminate.
Qed.

(** One step through a chain of binds: the pure pieces cannot raise at
    all, the others raise [Exception]s only. *)
Ltac no_exit_step :=
  first [ apply no_exit_ret | apply no_exit_print | apply no_exit_await
        | apply no_exit_lift_sum | apply no_exit_server_params
        | apply no_exit_subscript | apply no_exit_dict_get
        | apply no_exit_bind; [| intros ?]
        | (intros ? ?; discriminate) ].

Lemma no_exit_connect : no_exit (connect mcp).
Proof.
  unfold connect. repeat no_exit_step.
  match goal with p : (stream * stream)%type |- _ => destruct p as [rd wr] end.
  repeat no_exit_step.
Qed.

Lemma no_exit_the_session : no_exit (the_session (W:=W)).
Proof.
  unfold the_session. no_exit_step; [no_exit_step |].
  match goal with me : MCPExecutor |- _ => destruct (session me) end;
    no_exit_step.
Qed.

Lemma no_exit_run_op (o : op) : no_exit (run_op mcp o).
Proof.
  destruct o; simpl; unfold list_tools, describe_tool, call_tool;
    (no_exit_step; [no_exit_step |]);
    (no_exit_step;
     [match goal with me : MCPExecutor |- _ => destruct (session me) end;
      [no_exit_step | apply no_exit_connect] |]);
    (no_exit_step; [apply no_exit_the_session |]);
    repeat no_exit_step.
Qed.

Lemma no_exit_print_item (item : value) :
  no_exit (print_item json_dumps py_str item).
Proof.
  unfold print_item.
  destruct item as [| b | z | s | items | entries | cls attrs];
    try (repeat no_exit_step; fail).
  destruct (lookup "text" attrs); repeat no_exit_step.
Qed.

Lemma no_exit_for_each {A : Type} (body : A -> M unit) (xs : list A) :
  (forall x, no_exit (body x)) -> no_exit (for_each body xs).
Proof.
  intros Hb. induction xs as [| x xs IH]; simpl.
  - apply no_exit_ret.
  - apply no_exit_bind; [apply Hb | intros _; exact IH].
Qed.

(** *** The result of [describe_tool] is [None] or a non-empty mapping *)

Lemma scan_tools_none_or_truthy (q : string) (ts : list Tool) :
  scan_tools q ts = VNone \/ truthy (scan_tools q ts) = true.
Proof.
  induction ts as [| t ts IH]; simpl.
  - now left.
  - destruct (String.eqb (name t) q); [now right | exact IH].
Qed.

Lemma describe_tool_none_or_truthy (q : string) (st st' : state W) (v : value) :
  describe_tool mcp q st = (Ok v, st') -> v = VNone \/ truthy v = true.
Proof.
  unfold describe_tool, bind, get_self, the_session, await, ret. intros H.
  repeat match type of H with
         | context [match ?x with _ => _ end] => destruct x eqn:?
         end;
    inversion H; apply scan_tools_none_or_truthy.
Qed.

Lemma close_console (st : state W) : console (snd (close mcp st)) = console st.
Proof.
  unfold close, bind, get_self, try_except_pass, await, ret.
  destruct (session (self st)) as [s |]; [| reflexivity].
  destruct (session_aexit mcp s (world st)) as [[e | []] w1]; reflexivity.
Qed.

(** *** The failure cases *)

Local Abbreviation dispatch' := (dispatch mcp json_loads json_dumps py_str help_text).
Local Abbreviation run_script' :=
  (run_script mcp config_path json_loads json_dumps py_str format_exc help_text).

(** [--describe NAME] is the operation taken and the listing has no
    tool of that name: [describe_tool] returned [None]. *)
Definition tool_not_found (a : Namespace) (st : state W) : Prop :=
  exists q st',
    arg_list a = false /\ arg_describe a = Some q /\ q <> "" /\
    describe_tool mcp q st = (Ok VNone, st').

(** An [Exception] was raised inside the [try] block. *)
Definition operation_error (a : Namespace) (st : state W) : Prop :=
  exists e, fst (dispatch' a st) = Raise (Error e).

(** The failures the exit-code sentence lists: no configuration file,
    no package, tool not found, an error during the operation. *)
Definition listed_failure
           (a : Namespace) (HAS_MCP : bool) (config_file : option string) (w : W) : Prop :=
  config_file = None \/
  HAS_MCP = false \/
  exists text config,
    config_file = Some text /\ json_loads text = inr config /\
    (tool_not_found a (fresh config w) \/ operation_error a (fresh config w)).

(** The configuration file is there and [json.load] raises on it. *)
Definition config_unreadable (config_file : option string) : Prop :=
  exists text e, config_file = Some text /\ json_loads text = inl e.

Lemma given_some (x : option string) :
  given x = true -> exists q, x = Some q /\ q <> "".
Proof.
  destruct x as [q |]; simpl; [| discriminate].
  destruct (String.eqb_spec q ""); [discriminate |]. intros _. now exists q.
Qed.

(** [SystemExit] leaves the [try] body only from the tool-not-found
    branch, with status 1 and after the message. *)
Lemma dispatch_exit (a : Namespace) (st : state W) (code : Z) :
  fst (dispatch' a st) = Raise (SystemExit code) ->
  code = 1%Z /\ tool_not_found a st /\
  exists s, In (Stderr s) (console (snd (dispatch' a st))).
Proof.
  unfold dispatch. destruct (arg_list a) eqn:Hl.
  { intros H. exfalso. revert H.
    apply no_exit_bind; [apply (no_exit_run_op OpList) | intros tools].
    repeat no_exit_step. }
  destruct (given (arg_describe a)) eqn:Hd.
  { destruct (given_some _ Hd) as (q & Hq & Hne). rewrite Hq.
    unfold bind at 1.
    destruct (describe_tool mcp q st) as [[schema | x] st'] eqn:Hdt.
    - destruct (truthy schema) eqn:Ht.
      + intros H. exfalso. revert H.
        repeat no_exit_step.
      + simpl. intros H. inversion H. split; [reflexivity |]. split.
        * exists q, st'. repeat split; auto.
          destruct (describe_tool_none_or_truthy q st st' schema Hdt) as [-> | Ht'];
            [exact Hdt | congruence].
        * exists ("Tool not found: " ++ q)%string.
          unfold bind. rewrite Hdt, Ht. simpl. apply in_or_app. right. now left.
    - simpl. intros H. exfalso.
      apply (no_exit_run_op (OpDescribe q) st code). simpl. rewrite Hdt. simpl.
      congruence. }
  destruct (given (arg_call a)) eqn:Hc.
  { intros H. exfalso. revert H.
    do 3 (apply no_exit_bind; [no_exit_step | intros ?]).
    apply no_exit_bind; [apply (no_exit_run_op (OpCall _ _)) | intros r].
    destruct r as [| b | z | t | items | entries | cls attrs];
      try (repeat no_exit_step; fail).
    apply no_exit_for_each. intros x. apply no_exit_print_item. }
  intros H. discriminate.
Qed.

Lemma tool_not_found_exit (a : Namespace) (st : state W) :
  tool_not_found a st -> fst (dispatch' a st) = Raise (SystemExit 1).
Proof.
  intros (q & st' & Hl & Hd & Hne & Hdt).
  unfold dispatch, given. rewrite Hl, Hd.
  destruct (String.eqb_spec q ""); [contradiction |]. simpl.
  unfold bind at 1. rewrite Hdt. reflexivity.
Qed.

(** *** A run, once the configuration is loaded and the package is there *)

Lemma run_script_loaded (a : Namespace) (text : string) (config : value) (w : W) :
  json_loads text = inr config ->
  match fst (dispatch' a (fresh config w)) with
  | Ok _ => fst (run_script' a true (Some text) w) = 0%Z
  | Raise (Error e) =>
      fst (run_script' a true (Some text) w) = 1%Z /\
      In (Stderr ("Error: " ++ err_msg e)) (snd (run_script' a true (Some text) w))
  | Raise (SystemExit code) =>
      fst (run_script' a true (Some text) w) = code /\
      snd (run_script' a true (Some text) w) = console (snd (dispatch' a (fresh config w)))
  end.
Proof.
  intros Hj. unfold run_script, main. rewrite Hj. simpl.
  unfold try_finally, try_except_Exception. fold (fresh config w).
  destruct (dispatch' a (fresh config w)) as [[[] | [e | code]] st1] eqn:Hd; simpl.
  - destruct (close mcp st1) as [rc st2] eqn:Hc.
    destruct (close_spec mcp st1) as (Hok & _). rewrite Hc in Hok. simpl in Hok.
    subst rc. reflexivity.
  - unfold on_exception, bind, print, sys_exit, raise. simpl.
    match goal with
    | |- context [close mcp ?s1] =>
        destruct (close mcp s1) as [rc st2] eqn:Hc;
        destruct (close_spec mcp s1) as (Hok & _);
        pose proof (close_console s1) as Hcon
    end.
    rewrite Hc in Hok, Hcon. simpl in Hok, Hcon. subst rc. simpl.
    split; [reflexivity |]. rewrite Hcon.
    apply in_or_app. left. apply in_or_app. right. now left.
  - destruct (close mcp st1) as [rc st2] eqn:Hc.
    destruct (close_spec mcp st1) as (Hok & _).
    pose proof (close_console st1) as Hcon.
    rewrite Hc in Hok, Hcon. simpl in Hok, Hcon. subst rc. simpl.
    split; [reflexivity | exact Hcon].
Qed.

(** Every run ends in one of two ways. *)
Lemma run_script_cases
      (a : Namespace) (HAS_MCP : bool) (config_file : option string) (w : W) :
  (fst (run_script' a HAS_MCP config_file w) = 1%Z /\
   (listed_failure a HAS_MCP config_file w \/ config_unreadable config_file) /\
   exists s, In (Stderr s) (snd (run_script' a HAS_MCP config_file w)))
  \/
  (fst (run_script' a HAS_MCP config_file w) = 0%Z /\
   exists text config,
     config_file = Some text /\ json_loads text = inr config /\ HAS_MCP = true /\
     fst (dispatch' a (fresh config w)) = Ok tt).
Proof.
  destruct config_file as [text |].
  - destruct (json_loads text) as [e | config] eqn:Hj.
    + left. unfold run_script, main. rewrite Hj. simpl. repeat split.
      * right. now exists text, e.
      * exists (format_exc e). apply in_or_app. right. now left.
    + destruct HAS_MCP.
      * pose proof (run_script_loaded a text config w Hj) as H.
        destruct (fst (dispatch' a (fresh config w))) as [[] | [e | code]] eqn:Hd.
        -- right. split; [exact H |]. now exists text, config.
        -- left. destruct H as [Hc Hin]. repeat split; [exact Hc | | eauto].
           left. right. right. exists text, config. repeat split; auto.
           right. now exists e.
        -- left. destruct H as [Hc Hout].
           destruct (dispatch_exit a (fresh config w) code Hd) as (-> & Hnf & s & Hs).
           repeat split; [exact Hc | | exists s; rewrite Hout; exact Hs].
           left. right. right. exists text, config. auto.
      * left. unfold run_script, main. rewrite Hj. simpl. repeat split.
        -- left. right. now left.
        -- eexists. right. left. reflexivity.
  - left. unfold run_script, main. simpl. repeat split.
    + left. now left.
    + exists ("Error: Configuration file not found: " ++ config_path)%string.
      destruct HAS_MCP; simpl; auto.
Qed.

(** The two ways exclude each other. *)
Lemma failure_excludes_success
      (a : Namespace) (HAS_MCP : bool) (config_file : option string) (w : W)
      (text : string) (config : value) :
  config_file = Some text -> json_loads text = inr config -> HAS_MCP = true ->
  fst (dispatch' a (fresh config w)) = Ok tt ->
  ~ (listed_failure a HAS_MCP config_file w \/ config_unreadable config_file).
Proof.
  intros Hf Hj Hm Hd [[H | [H | (text' & config' & Hf' & Hj' & H)]] | (text' & e & Hf' & Hj')];
    try congruence.
  assert (text' = text) by congruence. subst text'.
  assert (config' = config) by congruence. subst config'.
  destruct H as [H | [e H]].
  - apply tool_not_found_exit in H. congruence.
  - congruence.
Qed.

(** C9, as the code has it.  The exit status is 0 or 1.  It is 1
    exactly when the configuration file is missing, the package is
    unavailable, [--describe] names a tool the listing does not have,
    an [Exception] is raised during the operation, or the
    configuration file is there and cannot be parsed (the exception
    then leaves [main] and the interpreter ends with status 1 after
    its traceback); in each of these cases a line has been written to
    the diagnostic stream.  It is 0 exactly when the configuration is
    loaded, the package is there and the selected operation returns;
    with no operation selected that is the help display. *)
Theorem exit_status_of_run
        (a : Namespace) (HAS_MCP : bool) (config_file : option string) (w : W) :
  let code := fst (run_script' a HAS_MCP config_file w) in
  let out := snd (run_script' a HAS_MCP config_file w) in
  (code = 0 \/ code = 1)%Z /\
  (code = 1%Z <->
   listed_failure a HAS_MCP config_file w \/ config_unreadable config_file) /\
  (code = 1%Z -> exists s, In (Stderr s) out) /\
  (code = 0%Z <->
   exists text config,
     config_file = Some text /\ json_loads text = inr config /\ HAS_MCP = true /\
     fst (dispatch' a (fresh config w)) = Ok tt) /\
  (forall text config,
      config_file = Some text -> json_loads text = inr config -> HAS_MCP = true ->
      arg_list a = false -> given (arg_describe a) = false ->
      given (arg_call a) = false ->
      run_script' a HAS_MCP config_file w = (0%Z, [Stdout help_text])).
Proof.
  intros code out.
  pose proof (run_script_cases a HAS_MCP config_file w) as C.
  fold code in C. fold out in C.
  repeat split.
  - destruct C as [(H & _) | (H & _)]; auto.
  - intros H1. destruct C as [(_ & H & _) | (H0 & _)]; [exact H | congruence].
  - intros Hfail. destruct C as [(H & _) | (_ & text & config & Hf & Hj & Hm & Hd)];
      [exact H |].
    exfalso. exact (failure_excludes_success a HAS_MCP config_file w text config
                      Hf Hj Hm Hd Hfail).
  - intros H1. destruct C as [(_ & _ & H) | (H0 & _)]; [exact H | congruence].
  - intros H0. destruct C as [(H1 & _) | (_ & H)]; [congruence | exact H].
  - intros (text & config & Hf & Hj & Hm & Hd).
    destruct C as [(_ & Hfail & _) | (H & _)]; [| exact H].
    exfalso. exact (failure_excludes_success a HAS_MCP config_file w text config
                      Hf Hj Hm Hd Hfail).
  - intros text config Hf Hj Hm Hl Hd Hc. subst config_file HAS_MCP.
    unfold run_script, main. rewrite Hj. simpl.
    unfold try_finally, try_except_Exception, dispatch. rewrite Hl, Hd, Hc.
    reflexivity.
Qed.

End Script.

(** * Concrete runs *)

(** The end-to-end example: the listing, a call that succeeds, a reply
    that cannot be decoded, and three runs of the script. *)
Example echo_list :
  fst (list_tools echo_server echo_fresh) =
  Ok (VList [VDict [("name", VStr "ping"); ("description", VStr "replies pong")]]).
Proof. reflexivity. Qed.

Example echo_call_ping :
  fst (call_tool echo_server (VStr "ping") (VDict []) echo_fresh) =
  Ok (VList [text_content "pong"]).
Proof. reflexivity. Qed.

Example garbled_reply_is_raised :
  fst (call_tool garbled_server (VStr "ping") (VDict []) echo_fresh) =
  Raise (Error (mk_error "ValidationError" "malformed call_tool response")).
Proof. reflexivity. Qed.

Example script_list :
  run_script echo_server "mcp-config.json" host_json_loads host_json_dumps
             host_str host_format_exc "usage"
             (mk_args None None true) true (Some "{echo}") 0 =
  (0%Z, [Stdout "<json>"]).
Proof. reflexivity. Qed.

Example script_describe_unknown :
  run_script echo_server "mcp-config.json" host_json_loads host_json_dumps
             host_str host_format_exc "usage"
             (mk_args None (Some "nope") false) true (Some "{echo}") 0 =
  (1%Z, [Stderr "Tool not found: nope"]).
Proof. reflexivity. Qed.

Example script_no_config :
  run_script echo_server "mcp-config.json" host_json_loads host_json_dumps
             host_str host_format_exc "usage"
             (mk_args None None true) true None 0 =
  (1%Z, [Stderr "Error: Configuration file not found: mcp-config.json"]).
Proof. reflexivity. Qed.

(** C1 fails where no transport comes up: on the server that cannot
    be started, and on a configuration without a command, the first
    operation enters [connect] once and sends no handshake. *)
Lemma first_use_without_handshake :
  session (self echo_fresh) = None /\
  count is_connect (trace (snd (run_op absent_server OpList echo_fresh))) = 1 /\
  count is_handshake (trace (snd (run_op absent_server OpList echo_fresh))) = 0 /\
  count is_connect (trace (snd (run_op echo_server OpList (fresh (VDict []) 0)))) = 1 /\
  count is_handshake (trace (snd (run_op echo_server OpList (fresh (VDict []) 0)))) = 0.
Proof.
  repeat split.
Qed.

(** C1 as amended, on the ticking server: [list_tools] on a fresh
    executor connects once, sends one handshake and then its request
    (the world has counted the transport and both calls); a
    [call_tool] after it sends its request and nothing else. *)
Lemma lazy_connect_first_use_ticking :
  session (self echo_fresh) = None /\
  count is_connect (trace (snd (run_op ticking_server OpList echo_fresh))) = 1 /\
  count is_handshake (trace (snd (run_op ticking_server OpList echo_fresh))) = 1 /\
  world (snd (run_op ticking_server OpList echo_fresh)) = 4 /\
  world (snd (run_op ticking_server (OpCall (VStr "ping") (VDict []))
                     (snd (run_op ticking_server OpList echo_fresh)))) = 5 /\
  count is_handshake
    (trace (snd (run_op ticking_server (OpCall (VStr "ping") (VDict []))
                        (snd (run_op ticking_server OpList echo_fresh))))) = 1.
Proof.
  destruct (lazy_connect_first_use ticking_server OpList echo_fresh eq_refl)
    as (H1 & _ & _ & H4 & H5).
  destruct (H4 (mk_params (VStr "echo-server") (VList []) VNone) 0 1 2 3 (inr tt)
               eq_refl eq_refl eq_refl) as (Hrun & Hh).
  set (st_c := mk_state (mk_executor echo_config (Some echo_session) (Some (0, 1))) 3
                 [EvConnect;
                  EvStdioClient (mk_params (VStr "echo-server") (VList []) VNone);
                  EvClientSession echo_session; EvInitialize echo_session] []).
  destruct (H5 st_c echo_session OpList eq_refl) as (_ & _ & Hw1 & _).
  destruct (H5 (snd (run_op ticking_server OpList echo_fresh)) echo_session
               (OpCall (VStr "ping") (VDict [])) eq_refl)
    as (_ & _ & Hw2 & _ & _ & Hc).
  refine (conj eq_refl (conj H1 (conj Hh (conj _ (conj _ _))))).
  - rewrite Hrun. exact Hw1.
  - rewrite Hw2. reflexivity.
  - rewrite Hc. exact Hh.
Defined.

(** C7 on the echo server: the one tool comes back as name and
    description. *)
Lemma list_tools_maps_in_order_echo :
  via echo_server echo_fresh echo_ready echo_session /\
  exists ds,
    fst (list_tools echo_server echo_fresh) = Ok (VList ds) /\
    length ds = 1.
Proof.
  assert (Hv : via echo_server echo_fresh echo_ready echo_session)
    by (split; [reflexivity | right; split; reflexivity]).
  split; [exact Hv |].
  destruct (list_tools_maps_in_order echo_server echo_fresh echo_ready echo_session
              (mk_listing [ping]) 2 Hv eq_refl) as (ds & H1 & H2 & _).
  exists ds. split; [exact H1 | exact H2].
Defined.

(** C5 on the twin server: [c] is in no listing entry, and the answer
    is [None]. *)
Lemma describe_tool_by_exact_name_twin :
  via twin_server echo_fresh twin_ready echo_session /\
  fst (describe_tool twin_server "c" echo_fresh) = Ok VNone.
Proof.
  assert (Hv : via twin_server echo_fresh twin_ready echo_session)
    by (split; [reflexivity | right; split; reflexivity]).
  split; [exact Hv |].
  apply (describe_tool_by_exact_name twin_server "c" echo_fresh twin_ready echo_session
           twin_listing 2 Hv eq_refl).
  intros t [<- | [<- | [<- | []]]]; discriminate.
Defined.

(** C10 on the twin server: of the two tools named [b], the first. *)
Lemma describe_tool_first_match_twin :
  fst (describe_tool twin_server "b" echo_fresh) =
  Ok (full_descriptor (mk_tool "b" (VStr "second") (VDict [("type", VStr "string")]))).
Proof.
  apply (describe_tool_first_match twin_server "b" echo_fresh twin_ready echo_session
           twin_listing 2
           [mk_tool "a" (VStr "first") (VDict [("type", VStr "object")])]
           (mk_tool "b" (VStr "second") (VDict [("type", VStr "string")]))
           [mk_tool "b" (VStr "third") (VDict [])]).
  - split; [reflexivity | right; split; reflexivity].
  - reflexivity.
  - reflexivity.
  - intros u [<- | []]. discriminate.
  - reflexivity.
Defined.

(** C2 fails on the echo server: the reply to a call of an unknown
    tool carries the failure flag, and [call_tool] returns its content
    like any other; nothing is raised. *)
Lemma tool_failure_is_returned :
  session_call_tool echo_server echo_session (VStr "missing") (VDict []) 2 =
    (inr (mk_call_result (VList [text_content "Unknown tool"]) true), 2) /\
  fst (call_tool echo_server (VStr "missing") (VDict []) echo_fresh) =
    Ok (VList [text_content "Unknown tool"]) /\
  ~ exists e, fst (call_tool echo_server (VStr "missing") (VDict []) echo_fresh) = Raise e.
Proof.
  repeat split. intros [e H]. discriminate H.
Qed.

(** C2 as amended, on the echo server and on the garbled one. *)
Lemma call_tool_returns_content_echo :
  via echo_server echo_fresh echo_ready echo_session /\
  fst (call_tool echo_server (VStr "missing") (VDict []) echo_fresh) =
    Ok (VList [text_content "Unknown tool"]).
Proof.
  assert (Hv : via echo_server echo_fresh echo_ready echo_session)
    by (split; [reflexivity | right; split; reflexivity]).
  split; [exact Hv |].
  apply (proj1 (call_tool_returns_content echo_server (VStr "missing") (VDict [])
                  echo_fresh echo_ready echo_session Hv)
           (VList [text_content "Unknown tool"]) true 2).
  reflexivity.
Defined.

(** C3 fails on the echo server: after [close], [list_tools] sends its
    request on the session that was closed, with no new handshake. *)
Lemma closed_session_is_reused :
  let st1 := snd (close echo_server echo_ready) in
  let st2 := snd (list_tools echo_server st1) in
  session (self echo_ready) = Some echo_session /\
  trace st1 = trace echo_ready ++ [EvAexit echo_session] /\
  trace st2 = trace st1 ++ [EvListTools echo_session] /\
  count is_handshake (trace st2) = count is_handshake (trace st1).
Proof.
  repeat split.
Qed.

(** C3 as amended, on the echo server. *)
Lemma session_kept_after_close_echo :
  session (self echo_ready) = Some echo_session /\
  session (self (snd (close echo_server echo_ready))) = Some echo_session.
Proof.
  split; [reflexivity |].
  exact (proj1 (session_kept_after_close echo_server OpList echo_ready echo_session
                  eq_refl)).
Defined.

(** C4 fails on the echo server: [connect] on a connected executor
    starts a second transport, sends a second handshake and replaces
    the session. *)
Lemma connect_twice_connects_twice :
  let st := snd (connect echo_server echo_ready) in
  fst (connect echo_server echo_fresh) = Ok tt /\
  session (self echo_ready) = Some echo_session /\
  session (self st) = Some (mk_session 2 3) /\
  count is_spawn (trace st) = 2 /\
  count is_handshake (trace st) = 2.
Proof.
  repeat split.
Qed.

(** C4 as amended, on the echo server. *)
Lemma connect_unguarded_operations_guarded_echo :
  session (self echo_ready) = Some echo_session /\
  count is_spawn (trace (snd (connect echo_server echo_ready))) =
    count is_spawn (trace echo_ready) + 1 /\
  count is_new_session
    (trace (run_all echo_server [Use OpList; Close; Use OpList] echo_fresh)) <= 1.
Proof.
  pose proof (connect_unguarded_operations_guarded echo_server echo_ready echo_session
                (mk_params (VStr "echo-server") (VList []) VNone) eq_refl eq_refl)
    as (H1 & _ & _ & H4).
  exact (conj eq_refl (conj H1 (H4 echo_config 0 [Use OpList; Close; Use OpList]))).
Defined.

(** C8 on a configuration without [env], on the ticking server: the
    transport is started with [None] for it, the session is built on
    the streams that [stdio_client] returned for these parameters, and
    the world has counted the transport and the handshake. *)
Lemma launch_spec_passed_verbatim_ticking :
  exists p,
    command p = VStr "echo-server" /\
    args p = VList [] /\
    env p = VNone /\
    stdio_client ticking_server p (world echo_fresh) = (inr (0, 1), 2) /\
    session (self (snd (connect ticking_server echo_fresh))) = Some (mk_session 0 1) /\
    world (snd (connect ticking_server echo_fresh)) = 3.
Proof.
  destruct (launch_spec_passed_verbatim ticking_server echo_fresh
              [("command", VStr "echo-server"); ("args", VList [])]
              (VStr "echo-server") eq_refl eq_refl eq_refl eq_refl eq_refl)
    as (p & [_ Hstart] & _ & Hc & Ha & _ & He).
  exists p.
  refine (conj Hc (conj (Ha (VList []) eq_refl) (conj (proj1 (He eq_refl))
           (conj eq_refl _)))).
  now rewrite (Hstart 0 1 2 3 (inr tt) eq_refl eq_refl).
Defined.

(** C9 fails on a configuration file that is not JSON: the status is
    1, and the file is there, the package is there, and no operation
    was started, so that none of the listed failures took place. *)
Lemma unparsable_config_exits_1 :
  fst (run_script echo_server "mcp-config.json" host_json_loads host_json_dumps
                  host_str host_format_exc "usage"
                  (mk_args None None true) true (Some "not json") 0) = 1%Z /\
  ~ listed_failure echo_server host_json_loads host_json_dumps host_str "usage"
      (mk_args None None true) true (Some "not json") 0.
Proof.
  split; [reflexivity |].
  intros [H | [H | (text & config & Hf & Hj & _)]]; try discriminate.
  injection Hf as <-. vm_compute in Hj. discriminate.
Qed.

(** C9 as amended, on the echo server with no operation selected. *)
Lemma exit_status_of_run_help :
  run_script echo_server "mcp-config.json" host_json_loads host_json_dumps
             host_str host_format_exc "usage"
             (mk_args None None false) true (Some "{echo}") 0 =
  (0%Z, [Stdout "usage"]).
Proof.
  apply (exit_status_of_run echo_server "mcp-config.json" host_json_loads host_json_dumps
           host_str host_format_exc "usage"
           (mk_args None None false) true (Some "{echo}") 0) with (text := "{echo}")
                                                                 (config := echo_config);
    reflexivity.
Defined.

(** * Further properties of the executor *)

Section Lifecycle.

Context {W : Type}.
Variable mcp : MCP W.

(** The executor as [connect] leaves it on session [s]. *)
Definition connected_executor (config : value) (s : ClientSession) : MCPExecutor :=
  mk_executor config (Some s) (Some (read_stream s, write_stream s)).

(** The four shapes of one operation on an executor without a
    session, by how far the connection sequence got. *)
Inductive first_use (st st1 : state W) : Prop :=
| use_no_params :
    trace st1 = trace st ++ [EvConnect] ->
    self st1 = self st ->
    first_use st st1
| use_no_transport (p : StdioServerParameters) :
    trace st1 = trace st ++ [EvConnect; EvStdioClient p] ->
    self st1 = self st ->
    first_use st st1
| use_no_handshake (p : StdioServerParameters) (s : ClientSession) :
    trace st1 = trace st ++ [EvConnect; EvStdioClient p;
                             EvClientSession s; EvInitialize s] ->
    self st1 = connected_executor (server_config (self st)) s ->
    first_use st st1
| use_request (p : StdioServerParameters) (s : ClientSession) (ev : event) :
    trace st1 = trace st ++ [EvConnect; EvStdioClient p;
                             EvClientSession s; EvInitialize s; ev] ->
    request_on s ev ->
    self st1 = connected_executor (server_config (self st)) s ->
    first_use st st1.

Lemma run_op_first_use (o : op) (st : state W) :
  session (self st) = None -> first_use st (snd (run_op mcp o st)).
Proof.
  intros Hn. rewrite (run_op_lazy mcp o st Hn).
  pose proof (connect_cases mcp st) as C.
  inversion C as [e He Hc | p e w1 Hp Hs Hc | p rd wr w1 w2 r Hp Hs Hi Hc].
  - now apply use_no_params.
  - now apply use_no_transport with p.
  - destruct r as [e | []].
    + now apply use_no_handshake with p (mk_session rd wr).
    + match goal with
      | |- context [run_op mcp o ?s1] =>
          destruct (run_op_ready mcp o s1 (mk_session rd wr) eq_refl)
            as (ev & Hev & Htr & Hself)
      end.
      apply use_request with p (mk_session rd wr) ev; [| exact Hev | exact Hself].
      rewrite Htr. simpl. rewrite <- app_assoc. reflexivity.
Qed.

(** X1.  When the transport starts and the handshake fails, the
    operation raises the handshake's error, but the session object is
    already stored: every later operation skips [connect] and sends
    its request on that session, whose handshake never succeeded. *)
Theorem handshake_failure_keeps_session
        (o : op) (st : state W) (p : StdioServerParameters)
        (rd wr : stream) (w1 w2 : W) (e : pyerror) :
  session (self st) = None ->
  server_params_of (server_config (self st)) = Ok p ->
  stdio_client mcp p (world st) = (inr (rd, wr), w1) ->
  session_initialize mcp (mk_session rd wr) w1 = (inl e, w2) ->
  let st1 := snd (run_op mcp o st) in
  fst (run_op mcp o st) = Raise (Error e) /\
  session (self st1) = Some (mk_session rd wr) /\
  forall o2 : op,
    exists ev, request_on (mk_session rd wr) ev /\
               trace (snd (run_op mcp o2 st1)) = trace st1 ++ [ev].
Proof.
  intros Hn Hp Hs Hi st1. subst st1. rewrite (run_op_lazy mcp o st Hn).
  pose proof (connect_cases mcp st) as C.
  inversion C as [x Hx Hc | p' x w1' Hp' Hs' Hc | p' rd' wr' w1' w2' r Hp' Hs' Hi' Hc];
    try congruence.
  assert (p' = p) by congruence. subst p'.
  assert (rd' = rd /\ wr' = wr /\ w1' = w1) as (-> & -> & ->)
      by (repeat split; congruence).
  assert (r = inl e) by congruence. subst r. simpl.
  repeat split. intros o2.
  match goal with
  | |- context [run_op mcp o2 ?s1] =>
      destruct (run_op_ready mcp o2 s1 (mk_session rd wr) eq_refl)
        as (ev & Hev & Htr & _)
  end.
  now exists ev.
Qed.

(** X2.  When the transport cannot be started, the operation raises
    the transport's error and leaves the executor as it was, without a
    session; the next operation therefore goes through [connect]
    again. *)
Theorem spawn_failure_is_retried
        (o : op) (st : state W) (p : StdioServerParameters) (e : pyerror) (w1 : W) :
  session (self st) = None ->
  server_params_of (server_config (self st)) = Ok p ->
  stdio_client mcp p (world st) = (inl e, w1) ->
  let st1 := snd (run_op mcp o st) in
  fst (run_op mcp o st) = Raise (Error e) /\
  self st1 = self st /\
  trace st1 = trace st ++ [EvConnect; EvStdioClient p] /\
  forall o2 : op,
    count is_connect (trace (snd (run_op mcp o2 st1))) =
    count is_connect (trace st1) + 1.
Proof.
  intros Hn Hp Hs st1. subst st1. rewrite (run_op_lazy mcp o st Hn).
  pose proof (connect_cases mcp st) as C.
  inversion C as [x Hx Hc | p' x w1' Hp' Hs' Hc | p' rd' wr' w1' w2' r Hp' Hs' Hi' Hc];
    try congruence.
  assert (p' = p) by congruence. subst p'.
  assert (x = e) by congruence. subst x. simpl.
  repeat split. intros o2.
  match goal with
  | |- context [run_op mcp o2 ?s1] =>
      destruct (run_op_unconnected mcp o2 s1 Hn) as (evs & Htr & Hc0 & _)
  end.
  rewrite Htr, count_app.
  replace (count is_connect (EvConnect :: evs)) with (S (count is_connect evs))
    by reflexivity.
  rewrite Hc0. reflexivity.
Qed.

(** X3.  A configuration without a [command] entry makes the first
    operation raise [KeyError] before anything is asked of the
    package: no transport is started, and the executor is unchanged. *)
Theorem missing_command_raises_first
        (o : op) (st : state W) (cfg : list (string * value)) :
  session (self st) = None ->
  server_config (self st) = VDict cfg ->
  lookup "command" cfg = None ->
  (exists e, fst (run_op mcp o st) = Raise (Error e) /\ err_class e = "KeyError") /\
  trace (snd (run_op mcp o st)) = trace st ++ [EvConnect] /\
  self (snd (run_op mcp o st)) = self st /\
  world (snd (run_op mcp o st)) = world st.
Proof.
  intros Hn Hcfg Hc. rewrite (run_op_lazy mcp o st Hn).
  assert (Hp : server_params_of (server_config (self st)) =
               Raise (Error (mk_error "KeyError" (py_repr "command"))))
    by (rewrite Hcfg; unfold server_params_of, subscript; now rewrite Hc).
  pose proof (connect_cases mcp st) as C.
  inversion C as [x Hx Hr | p' x w1' Hp' Hs' Hr | p' rd' wr' w1' w2' r Hp' Hs' Hi' Hr];
    try congruence.
  assert (x = Error (mk_error "KeyError" (py_repr "command"))) by congruence. subst x.
  simpl. repeat split. now eexists.
Qed.

(** X4.  A configuration with a string [command], no [args] entry
    and a well-typed or absent [env] starts the transport with that
    command and the empty argument list: [stdio_client] is called
    with these parameters, and what [connect] does next is what it
    answers to them. *)
Theorem absent_args_default_to_empty
        (st : state W) (cfg : list (string * value)) (c : value) :
  server_config (self st) = VDict cfg ->
  lookup "command" cfg = Some c ->
  valid_command c = true ->
  lookup "args" cfg = None ->
  valid_env (match lookup "env" cfg with Some e => e | None => VNone end) = true ->
  exists p,
    starts_transport mcp st p /\
    (exists evs,
        trace (snd (connect mcp st)) = trace st ++ EvConnect :: EvStdioClient p :: evs) /\
    command p = c /\ args p = VList [].
Proof.
  intros Hcfg Hc Vc Ha Ve.
  set (p := mk_params c (VList [])
              (match lookup "env" cfg with Some e => e | None => VNone end)).
  assert (Hp : server_params_of (server_config (self st)) = Ok p).
  { rewrite Hcfg. unfold server_params_of, subscript, dict_get. rewrite Hc, Ha.
    assert (E : StdioServerParameters_new (command p) (args p) (env p) = Ok p)
      by (unfold StdioServerParameters_new; simpl; now rewrite Vc, Ve).
    unfold p in *. simpl in E. destruct (lookup "env" cfg); exact E. }
  exists p. split; [now apply connect_starts_transport |]. split; [| now split].
  pose proof (connect_cases mcp st) as C.
  inversion C as [x Hx Hr | p' x w1' Hp' Hs' Hr | p' rd' wr' w1' w2' r Hp' Hs' Hi' Hr];
    try congruence; assert (p' = p) by congruence; subst p'.
  - now exists [].
  - now exists [EvClientSession (mk_session rd' wr'); EvInitialize (mk_session rd' wr')].
Qed.

(** X5.  Once the executor holds a session, no sequence of operations
    and closes changes the executor object: the session, the transport
    and the configuration stay what they are, also after [close] and
    after requests that raise. *)
Theorem executor_fixed_once_connected
        (steps : list api) (st : state W) (s : ClientSession) :
  session (self st) = Some s ->
  self (run_all mcp steps st) = self st.
Proof.
  revert st. induction steps as [| a steps IH]; intros st Hs; [reflexivity |].
  change (self (run_all mcp steps (step mcp a st)) = self st).
  assert (Hstep : self (step mcp a st) = self st).
  { destruct a as [o |]; simpl.
    - destruct (run_op_ready mcp o st s Hs) as (ev & _ & _ & Hself). exact Hself.
    - apply close_spec. }
  rewrite IH; [exact Hstep | now rewrite Hstep].
Qed.

(** X6.  Whatever a caller does with a fresh executor, the executor
    is either as constructed (no session, no transport) or holds a
    session together with the transport on the same two streams; the
    configuration it was constructed with never changes. *)
Theorem executor_fresh_or_connected (steps : list api) (config : value) (w : W) :
  self (run_all mcp steps (fresh config w)) = mk_executor config None None \/
  exists s, self (run_all mcp steps (fresh config w)) = connected_executor config s.
Proof.
  assert (G : forall st,
             (self st = mk_executor config None None \/
              exists s, self st = connected_executor config s) ->
             self (run_all mcp steps st) = mk_executor config None None \/
             exists s, self (run_all mcp steps st) = connected_executor config s).
  { induction steps as [| a steps IH]; intros st K; [exact K |].
    change (run_all mcp (a :: steps) st) with (run_all mcp steps (step mcp a st)).
    apply IH.
    destruct a as [o |]; simpl.
    - destruct K as [K | [s K]].
      + assert (Hn : session (self st) = None) by now rewrite K.
        destruct (run_op_first_use o st Hn) as [_ E | p _ E | p s _ E | p s ev _ _ E];
          rewrite E, ?K; simpl; eauto.
      + assert (Hs : session (self st) = Some s) by now rewrite K.
        destruct (run_op_ready mcp o st s Hs) as (ev & _ & _ & Hself).
        rewrite Hself. eauto.
    - destruct (close_spec mcp st) as (_ & Hself & _). rewrite Hself. exact K. }
  apply G. now left.
Qed.

(** X7.  [close] does not remember that it ran: on an executor that
    holds a session, each further [close] calls [__aexit__] on that
    session again. *)
Theorem close_repeats_teardown (n : nat) (st : state W) (s : ClientSession) :
  session (self st) = Some s ->
  trace (run_all mcp (repeat Close n) st) = trace st ++ repeat (EvAexit s) n.
Proof.
  revert st. induction n as [| n IH]; intros st Hs.
  - simpl. now rewrite app_nil_r.
  - change (run_all mcp (repeat Close (S n)) st)
      with (run_all mcp (repeat Close n) (snd (close mcp st))).
    destruct (close_spec mcp st) as (_ & Hself & Htr).
    rewrite IH by now rewrite Hself.
    rewrite Htr, Hs, <- app_assoc. reflexivity.
Qed.

(** *** No request before its handshake *)

(** In [tr], every request on a session comes after the [initialize]
    call on that session. *)
Definition handshake_first (tr : list event) : Prop :=
  forall pre ev post s,
    tr = pre ++ ev :: post -> request_on s ev -> In (EvInitialize s) pre.

Lemma handshake_first_snoc (tr : list event) (ev : event) :
  handshake_first tr ->
  (forall s, request_on s ev -> In (EvInitialize s) tr) ->
  handshake_first (tr ++ [ev]).
Proof.
  intros H Hev pre ev' post s E R. revert E.
  induction post as [| x body _] using rev_ind; intros E.
  - apply app_inj_tail in E. destruct E as [-> ->]. now apply Hev.
  - rewrite app_comm_cons, app_assoc in E. apply app_inj_tail in E.
    destruct E as [E _]. exact (H pre ev' body s E R).
Qed.

(** [l ++ [a; b; c]] as [((l ++ [a]) ++ [b]) ++ [c]]. *)
Ltac snoc_form :=
  repeat match goal with
         | |- context [?l ++ ?a :: ?b :: ?r] =>
             replace (l ++ a :: b :: r) with ((l ++ [a]) ++ b :: r)
               by (now rewrite <- app_assoc)
         end.

(** The invariant: requests come after their handshake, and the
    session the executor holds has had its handshake sent. *)
Definition handshaken (st : state W) : Prop :=
  handshake_first (trace st) /\
  forall s, session (self st) = Some s -> In (EvInitialize s) (trace st).

Lemma step_handshaken (a : api) (st : state W) :
  handshaken st -> handshaken (step mcp a st).
Proof.
  intros [Hf Hs]. destruct a as [o |]; simpl.
  - destruct (session (self st)) as [s |] eqn:Hses.
    + destruct (run_op_ready mcp o st s Hses) as (ev & Hev & Htr & Hself).
      split; rewrite Htr.
      * apply handshake_first_snoc; [exact Hf |].
        intros s' R. destruct ev; simpl in Hev, R; try contradiction;
          subst; now apply Hs.
      * intros s'. rewrite Hself, Hses. intros E. apply in_or_app. left.
        now apply Hs.
    + destruct (run_op_first_use o st Hses)
        as [Htr Hself | p Htr Hself | p s Htr Hself | p s ev Htr Hev Hself];
        split; rewrite Htr.
      * apply handshake_first_snoc; [exact Hf | intros s R; destruct R].
      * intros s. rewrite Hself, Hses. discriminate.
      * snoc_form.
        repeat apply handshake_first_snoc; try exact Hf; intros s R; destruct R.
      * intros s. rewrite Hself, Hses. discriminate.
      * snoc_form.
        repeat apply handshake_first_snoc; try exact Hf; intros s' R; destruct R.
      * intros s'. rewrite Hself. simpl. intros E. injection E as <-.
        apply in_or_app. right. simpl. auto.
      * snoc_form.
        apply handshake_first_snoc.
        -- repeat apply handshake_first_snoc; try exact Hf; intros s' R; destruct R.
        -- intros s' R. destruct ev; simpl in Hev, R; try contradiction; subst;
             apply in_or_app; right; now left.
      * intros s'. rewrite Hself. simpl. intros E. injection E as <-.
        apply in_or_app. right. simpl. auto.
  - destruct (close_spec mcp st) as (_ & Hself & Htr). split; rewrite Htr.
    + destruct (session (self st)) as [s |]; [| now rewrite app_nil_r].
      apply handshake_first_snoc; [exact Hf | intros s' R; destruct R].
    + intros s. rewrite Hself. intros E. apply in_or_app. left. now apply Hs.
Qed.

(** X8.  Whatever a caller does with a fresh executor, no
    [list_tools] or [call_tool] request is sent on a session before
    [initialize] has been called on that session. *)
Theorem no_request_before_handshake (steps : list api) (config : value) (w : W) :
  handshake_first (trace (run_all mcp steps (fresh config w))).
Proof.
  assert (G : forall st, handshaken st -> handshaken (run_all mcp steps st)).
  { induction steps as [| a steps IH]; intros st H; [exact H |].
    change (run_all mcp (a :: steps) st) with (run_all mcp steps (step mcp a st)).
    apply IH, step_handshaken, H. }
  apply G. split.
  - intros pre ev post s E. destruct pre; discriminate.
  - intros s. discriminate.
Qed.

End Lifecycle.

(** * Further properties of the command line *)

(** A host whose [--call] texts include a well-formed call of [ping]
    and a call without a tool name. *)
Definition call_json_loads (text : string) : pyerror + value :=
  if String.eqb text "{ping}" then inr (VDict [("tool", VStr "ping")])
  else if String.eqb text "{no tool}" then inr (VDict [("arguments", VDict [])])
  else host_json_loads text.

Section Runs.

Context {W : Type}.
Variable mcp : MCP W.
Variable config_path : string.
Variable json_loads : string -> pyerror + value.
Variable json_dumps : value -> pyerror + string.
Variable py_str : value -> string.
Variable format_exc : pyerror -> string.
Variable help_text : string.

Local Abbreviation dispatch' := (dispatch mcp json_loads json_dumps py_str help_text).
Local Abbreviation main' :=
  (main mcp config_path json_loads json_dumps py_str format_exc help_text).
Local Abbreviation run_script' :=
  (run_script mcp config_path json_loads json_dumps py_str format_exc help_text).
Local Abbreviation print_item' := (print_item (W:=W) json_dumps py_str).

(** *** Who writes to the console, and who touches the rest *)

(** [m] writes nothing. *)
Definition quiet {A : Type} (m : M (W:=W) A) : Prop :=
  forall st, console (snd (m st)) = console st.

Lemma quiet_bind {A B : Type} (m : M A) (k : A -> M B) :
  quiet m -> (forall a, quiet (k a)) -> quiet (bind m k).
Proof.
  intros Hm Hk st. unfold bind. specialize (Hm st).
  destruct (m st) as [[a | e] st1]; simpl in *; [| exact Hm].
  now rewrite Hk.
Qed.

Lemma quiet_await {A : Type} (ev : event) (f : W -> (pyerror + A) * W) :
  quiet (await ev f).
Proof.
  intros st. unfold await. destruct (f (world st)) as [[e | a] w1]; reflexivity.
Qed.

Ltac quiet_step :=
  first [ apply quiet_await
        | apply quiet_bind; [| intros ?]
        | (intros ?; reflexivity) ].

Lemma quiet_connect : quiet (connect mcp).
Proof.
  unfold connect. repeat quiet_step.
  match goal with p : (stream * stream)%type |- _ => destruct p as [rd wr] end.
  repeat quiet_step.
Qed.

Lemma quiet_run_op (o : op) : quiet (run_op mcp o).
Proof.
  destruct o; simpl; unfold list_tools, describe_tool, call_tool;
    (quiet_step; [quiet_step |]);
    (quiet_step;
     [match goal with me : MCPExecutor |- _ => destruct (session me) end;
      [quiet_step | apply quiet_connect] |]);
    (quiet_step;
     [unfold the_session; quiet_step; [quiet_step |];
      match goal with me : MCPExecutor |- _ => destruct (session me) end;
      quiet_step |]);
    repeat quiet_step.
Qed.

(** [st] and [st'] agree on everything but the console. *)
Definition same_machine (st st' : state W) : Prop :=
  self st = self st' /\ world st = world st' /\ trace st = trace st'.

Lemma same_machine_refl (st : state W) : same_machine st st.
Proof. repeat split. Qed.

(** Printing the items of a result touches the console only. *)
Lemma print_item_machine (item : value) (st : state W) :
  same_machine (snd (print_item' item st)) st.
Proof.
  unfold print_item, dumps_dict_or_self, bind, lift_sum, print, ret, raise.
  destruct item as [| b | z | s | items | entries | cls attrs];
    try solve [match goal with
               | |- context [json_dumps ?v] => destruct (json_dumps v)
               end; repeat split].
  destruct (lookup "text" attrs); [repeat split |].
  destruct (json_dumps (VDict attrs)); repeat split.
Qed.

Lemma for_each_print_machine (items : list value) (st : state W) :
  same_machine (snd (for_each print_item' items st)) st.
Proof.
  revert st. induction items as [| x items IH]; intros st; simpl.
  - apply same_machine_refl.
  - unfold bind. pose proof (print_item_machine x st) as Hx.
    destruct (print_item' x st) as [[[] | e] st1]; simpl in Hx; [| exact Hx].
    destruct (IH st1) as (H1 & H2 & H3). destruct Hx as (H4 & H5 & H6).
    repeat split; congruence.
Qed.

(** After the [try] block the machine is as it was, or as one
    operation left it. *)
Lemma dispatch_machine (a : Namespace) (st : state W) :
  exists st0,
    (st0 = st \/ exists o, st0 = snd (run_op mcp o st)) /\
    same_machine (snd (dispatch' a st)) st0.
Proof.
  unfold dispatch. destruct (arg_list a).
  { exists (snd (run_op mcp OpList st)). split; [right; now exists OpList |].
    simpl. unfold bind.
    destruct (list_tools mcp st) as [[v | e] st1]; simpl; [| apply same_machine_refl].
    unfold lift_sum. destruct (json_dumps v); repeat split. }
  destruct (given (arg_describe a)).
  { set (q := match arg_describe a with Some s => s | None => "" end).
    exists (snd (run_op mcp (OpDescribe q) st)).
    split; [right; now exists (OpDescribe q) |].
    simpl. unfold bind.
    destruct (describe_tool mcp q st) as [[v | e] st1]; simpl;
      [| apply same_machine_refl].
    destruct (truthy v); [| repeat split].
    unfold lift_sum. destruct (json_dumps v); repeat split. }
  destruct (given (arg_call a));
    [| exists st; split; [now left | repeat split]].
  unfold bind, lift_sum, lift_result, dumps_dict_or_self.
  destruct (json_loads _) as [e | call_data];
    [exists st; split; [now left | repeat split] |].
  unfold ret at 1. cbv beta iota.
  destruct (subscript call_data "tool") as [tool | e];
    [| exists st; split; [now left | repeat split]].
  destruct (dict_get call_data "arguments" (VDict [])) as [arguments | e];
    [| exists st; split; [now left | repeat split]].
  exists (snd (run_op mcp (OpCall tool arguments) st)).
  split; [right; now exists (OpCall tool arguments) |]. simpl.
  destruct (call_tool mcp tool arguments st) as [[r | e] st1]; simpl;
    [| apply same_machine_refl].
  destruct r as [| b | z | t | items | entries | cls attrs];
    try apply for_each_print_machine;
    match goal with
    | |- context [json_dumps ?v] => destruct (json_dumps v)
    end; repeat split.
Qed.

(** *** What a run asks of the package *)

Lemma close_after (st st0 : state W) :
  same_machine st st0 ->
  trace (snd (close mcp st)) =
  trace st0 ++ match session (self st0) with Some s => [EvAexit s] | None => [] end.
Proof.
  intros (H1 & _ & H3). destruct (close_spec mcp st) as (_ & _ & Htr).
  now rewrite Htr, H1, H3.
Qed.

Lemma main_events (a : Namespace) (text : string) (config : value) (w : W) :
  json_loads text = inr config ->
  exists st0,
    (st0 = fresh config w \/ exists o, st0 = snd (run_op mcp o (fresh config w))) /\
    events (main' a true (Some text) w) =
    trace st0 ++ match session (self st0) with Some s => [EvAexit s] | None => [] end.
Proof.
  intros Hj.
  destruct (dispatch_machine a (fresh config w)) as (st0 & Hst0 & Hm).
  exists st0. split; [exact Hst0 |].
  unfold main. rewrite Hj. simpl.
  unfold try_finally, try_except_Exception. fold (fresh config w).
  destruct (dispatch' a (fresh config w)) as [[[] | [e | code]] st1]; simpl in Hm.
  - rewrite <- (close_after st1 st0 Hm).
    destruct (close mcp st1) as [[[] | x] st2]; reflexivity.
  - unfold on_exception, bind, print, sys_exit, raise. simpl.
    match goal with
    | |- context [close mcp ?s1] =>
        rewrite <- (close_after s1 st0 Hm);
        destruct (close mcp s1) as [[[] | x] st2]; reflexivity
    end.
  - rewrite <- (close_after st1 st0 Hm).
    destruct (close mcp st1) as [[[] | x] st2]; reflexivity.
Qed.

(** The conversations a run can have with the package. *)
Inductive run_events : list event -> Prop :=
| ran_nothing : run_events []
| ran_no_params : run_events [EvConnect]
| ran_no_transport (p : StdioServerParameters) :
    run_events [EvConnect; EvStdioClient p]
| ran_no_handshake (p : StdioServerParameters) (s : ClientSession) :
    run_events [EvConnect; EvStdioClient p; EvClientSession s; EvInitialize s;
                EvAexit s]
| ran_request (p : StdioServerParameters) (s : ClientSession) (ev : event) :
    request_on s ev ->
    run_events [EvConnect; EvStdioClient p; EvClientSession s; EvInitialize s;
                ev; EvAexit s].

(** X9.  Every run of the script, however it ends, has one of five
    conversations with the package: none; one that stops inside
    [connect] before a session exists (nothing to tear down); or one
    connection, at most one request on its session, and then, on
    success and on failure alike, exactly one [__aexit__] on that
    session as the last call. *)
Theorem script_protocol
        (a : Namespace) (HAS_MCP : bool) (config_file : option string) (w : W) :
  run_events (events (main' a HAS_MCP config_file w)).
Proof.
  destruct config_file as [text |]; [| apply ran_nothing].
  destruct (json_loads text) as [e | config] eqn:Hj.
  { unfold main. rewrite Hj. apply ran_nothing. }
  destruct HAS_MCP; [| unfold main; rewrite Hj; apply ran_nothing].
  destruct (main_events a text config w Hj) as (st0 & [-> | [o ->]] & ->).
  - apply ran_nothing.
  - destruct (run_op_first_use mcp o (fresh config w) eq_refl)
      as [Htr Hself | p Htr Hself | p s Htr Hself | p s ev Htr Hev Hself];
      rewrite Htr, Hself; simpl.
    + apply ran_no_params.
    + apply ran_no_transport.
    + apply ran_no_handshake.
    + now apply ran_request.
Qed.

(** X10.  Without an operation to perform, nothing is asked of the
    package: no configuration file, a configuration file that does not
    parse, no package, or no selector on the command line each leave
    the run without a single call. *)
Theorem nothing_started_without_operation
        (a : Namespace) (HAS_MCP : bool) (config_file : option string) (w : W) :
  config_file = None \/
  (exists text e, config_file = Some text /\ json_loads text = inl e) \/
  HAS_MCP = false \/
  (arg_list a = false /\ given (arg_describe a) = false /\ given (arg_call a) = false) ->
  events (main' a HAS_MCP config_file w) = [].
Proof.
  intros H. unfold main.
  destruct config_file as [text |]; [| reflexivity].
  destruct (json_loads text) as [e | config] eqn:Hj; [reflexivity |].
  destruct HAS_MCP; [| reflexivity].
  destruct H as [H | [(t & e & Ht & He) | [H | (Hl & Hd & Hc)]]]; try discriminate.
  - congruence.
  - simpl. unfold try_finally, try_except_Exception, dispatch.
    rewrite Hl, Hd, Hc. reflexivity.
Qed.

(** *** How a run ends, from how the [try] block ends *)

Lemma run_script_returned
      (a : Namespace) (text : string) (config : value) (w : W) (st1 : state W) :
  json_loads text = inr config ->
  dispatch' a (fresh config w) = (Ok tt, st1) ->
  run_script' a true (Some text) w = (0%Z, console st1).
Proof.
  intros Hj Hd. unfold run_script, main. rewrite Hj. simpl.
  unfold try_finally, try_except_Exception. fold (fresh config w). rewrite Hd.
  pose proof (close_console mcp st1) as Hc.
  destruct (close_spec mcp st1) as (Hok & _).
  destruct (close mcp st1) as [rc st2]. simpl in *. subst rc. simpl. now rewrite Hc.
Qed.

Lemma run_script_raised
      (a : Namespace) (text : string) (config : value) (w : W)
      (e : pyerror) (st1 : state W) :
  json_loads text = inr config ->
  dispatch' a (fresh config w) = (Raise (Error e), st1) ->
  run_script' a true (Some text) w =
  (1%Z, console st1 ++ [Stderr ("Error: " ++ err_msg e); Stderr (format_exc e)]).
Proof.
  intros Hj Hd. unfold run_script, main. rewrite Hj. simpl.
  unfold try_finally, try_except_Exception. fold (fresh config w). rewrite Hd.
  unfold on_exception, bind, print, sys_exit, raise. simpl.
  match goal with
  | |- context [close mcp ?s1] =>
      pose proof (close_console mcp s1) as Hc;
      destruct (close_spec mcp s1) as (Hok & _);
      destruct (close mcp s1) as [rc st2]
  end.
  simpl in *. subst rc. simpl. rewrite Hc, <- app_assoc. reflexivity.
Qed.

(** The text after [--call] cannot be used: [json.loads] raises [e]
    on it, or it is a JSON object without a [tool] entry, and [e] is
    the [KeyError] for that key, whose text is the quoted key. *)
Definition call_rejected (text : string) (e : pyerror) : Prop :=
  json_loads text = inl e \/
  exists entries,
    json_loads text = inr (VDict entries) /\
    lookup "tool" entries = None /\
    e = mk_error "KeyError" "'tool'".

(** X11.  A [--call] text that is not JSON, or that is a JSON object
    without a [tool] entry, ends the run with status 1 and the two
    diagnostic lines (for the missing entry the first is
    [Error: 'tool']), before anything is asked of the package: no
    server is started for a call that cannot be made. *)
Theorem rejected_call_starts_nothing
        (a : Namespace) (text : string) (config : value) (w : W)
        (c : string) (e : pyerror) :
  json_loads text = inr config ->
  arg_list a = false ->
  given (arg_describe a) = false ->
  arg_call a = Some c ->
  c <> "" ->
  call_rejected c e ->
  run_script' a true (Some text) w =
    (1%Z, [Stderr ("Error: " ++ err_msg e); Stderr (format_exc e)]) /\
  events (main' a true (Some text) w) = [].
Proof.
  intros Hj Hl Hd Hc Hne Hrej.
  assert (Hg : given (arg_call a) = true).
  { rewrite Hc. simpl. destruct (String.eqb_spec c ""); [contradiction | reflexivity]. }
  assert (Hdis : dispatch' a (fresh config w) = (Raise (Error e), fresh config w)).
  { unfold dispatch. rewrite Hl, Hd, Hg, Hc.
    unfold bind, lift_sum, lift_result.
    destruct Hrej as [Hr | (entries & Hr & Ht & ->)]; rewrite Hr; [reflexivity |].
    unfold ret at 1. cbv beta iota. unfold subscript. now rewrite Ht. }
  split.
  - now rewrite (run_script_raised a text config w e (fresh config w) Hj Hdis).
  - unfold main. rewrite Hj. simpl.
    unfold try_finally, try_except_Exception. fold (fresh config w). rewrite Hdis.
    reflexivity.
Qed.

(** *** What a run prints *)

(** The arguments select the listing, or the description of [q]. *)
Definition selects (a : Namespace) (o : op) : Prop :=
  (arg_list a = true /\ o = OpList) \/
  (arg_list a = false /\
   exists q, arg_describe a = Some q /\ q <> "" /\ o = OpDescribe q).

(** X12.  When [--list], or [--describe] of a tool that exists,
    succeeds, the run writes exactly one thing, the JSON text of the
    result on standard output, and ends with status 0. *)
Theorem result_printed_as_json
        (a : Namespace) (text : string) (config : value) (w : W)
        (o : op) (v : value) (st1 : state W) (s : string) :
  json_loads text = inr config ->
  selects a o ->
  run_op mcp o (fresh config w) = (Ok v, st1) ->
  v <> VNone ->
  json_dumps v = inr s ->
  run_script' a true (Some text) w = (0%Z, [Stdout s]).
Proof.
  intros Hj Hsel Hop Hv Hs.
  assert (Hcon : console st1 = []).
  { pose proof (quiet_run_op o (fresh config w)) as Hq. now rewrite Hop in Hq. }
  apply (run_script_returned a text config w
           (mk_state (self st1) (world st1) (trace st1) [Stdout s]) Hj).
  unfold dispatch.
  destruct Hsel as [[Hl ->] | (Hl & q & Hd & Hne & ->)]; rewrite Hl.
  - simpl in Hop. unfold bind, lift_sum, print. rewrite Hop, Hs. simpl.
    now rewrite Hcon.
  - rewrite Hd. simpl.
    destruct (String.eqb_spec q ""); [contradiction |]. simpl in *.
    unfold bind at 1. rewrite Hop.
    destruct (describe_tool_none_or_truthy mcp q _ _ _ Hop) as [-> | Ht];
      [contradiction |].
    rewrite Ht. unfold bind, lift_sum, print. rewrite Hs. simpl. now rewrite Hcon.
Qed.

(** Content items that carry a [text] attribute, with their texts. *)
Definition text_items (items texts : list value) : Prop :=
  Forall2 (fun item t => exists cls attrs,
               item = VObj cls attrs /\ lookup "text" attrs = Some t)
          items texts.

Definition printed (st : state W) (lines : list line) : state W :=
  mk_state (self st) (world st) (trace st) (console st ++ lines).

Lemma printed_nil (st : state W) : printed st [] = st.
Proof. unfold printed. rewrite app_nil_r. now destruct st. Qed.

Lemma print_text_items (items texts : list value) (st : state W) :
  text_items items texts ->
  for_each print_item' items st =
  (Ok tt, printed st (map (fun t => Stdout (py_str t)) texts)).
Proof.
  intros H. revert st.
  induction H as [| item t items texts (cls & attrs & -> & Ht) _ IH]; intros st.
  - simpl. unfold ret. now rewrite printed_nil.
  - simpl. unfold bind, print at 1. rewrite Ht. simpl. rewrite IH.
    unfold printed. simpl. now rewrite <- app_assoc.
Qed.

(** X13.  The loop over the content of a call result prints the text
    items one line each, in order, and stops at the first item that
    has no [text] and cannot be written as JSON: the lines printed so
    far stay, the error is raised, and no later item is printed. *)
Theorem printing_stops_at_first_failure
        (good texts : list value) (bad : value) (rest : list value)
        (e : pyerror) (st : state W) :
  text_items good texts ->
  (forall cls attrs, bad = VObj cls attrs -> lookup "text" attrs = None) ->
  dumps_dict_or_self json_dumps bad = inl e ->
  for_each print_item' (good ++ bad :: rest) st =
  (Raise (Error e), printed st (map (fun t => Stdout (py_str t)) texts)).
Proof.
  intros Hg Hbad He. revert st.
  induction Hg as [| item t items texts (cls & attrs & -> & Ht) _ IH]; intros st.
  - simpl. unfold bind. rewrite printed_nil.
    assert (Hp : print_item' bad st = (Raise (Error e), st)).
    { unfold print_item.
      destruct bad as [| b | z | s | items | entries | cls attrs];
        try (rewrite He; reflexivity).
      rewrite (Hbad cls attrs eq_refl), He. reflexivity. }
    now rewrite Hp.
  - simpl. unfold bind at 1, print at 1. rewrite Ht. simpl. rewrite IH.
    unfold printed. simpl. now rewrite <- app_assoc.
Qed.

(** X14.  A [--call] whose reply is a list of text items prints the
    texts, one line each and in the order of the reply, and ends with
    status 0, whether or not the remote tool reported failure in that
    reply. *)
Theorem call_prints_text_items
        (a : Namespace) (text : string) (config : value) (w : W)
        (c : string) (call_data tool arguments : value)
        (items texts : list value) (st1 : state W) :
  json_loads text = inr config ->
  arg_list a = false ->
  given (arg_describe a) = false ->
  arg_call a = Some c ->
  c <> "" ->
  json_loads c = inr call_data ->
  subscript call_data "tool" = Ok tool ->
  dict_get call_data "arguments" (VDict []) = Ok arguments ->
  call_tool mcp tool arguments (fresh config w) = (Ok (VList items), st1) ->
  text_items items texts ->
  run_script' a true (Some text) w =
  (0%Z, map (fun t => Stdout (py_str t)) texts).
Proof.
  intros Hj Hl Hd Hc Hne Hjc Hs Ha Hcall Hitems.
  assert (Hg : given (arg_call a) = true).
  { rewrite Hc. simpl. destruct (String.eqb_spec c ""); [contradiction | reflexivity]. }
  assert (Hcon : console st1 = []).
  { pose proof (quiet_run_op (OpCall tool arguments) (fresh config w)) as Hq.
    simpl in Hq. now rewrite Hcall in Hq. }
  rewrite (run_script_returned a text config w
             (printed st1 (map (fun t => Stdout (py_str t)) texts)) Hj).
  - unfold printed. simpl. now rewrite Hcon.
  - unfold dispatch. rewrite Hl, Hd, Hg, Hc.
    unfold bind at 1, lift_sum. rewrite Hjc. unfold ret at 1.
    unfold bind at 1, lift_result. rewrite Hs.
    unfold bind at 1. rewrite Ha.
    unfold bind at 1. rewrite Hcall. now apply print_text_items.
Qed.

(** X15.  The selectors are tried in the order list, describe, call,
    and the first one given decides the run: with [--list] the other
    two arguments are never looked at (a [--call] text that is not
    JSON does no harm), and with [--describe] the [--call] text is
    never looked at. *)
Theorem first_selector_decides
        (a : Namespace) (HAS_MCP : bool) (config_file : option string) (w : W) :
  (arg_list a = true ->
   main' a HAS_MCP config_file w =
   main' (mk_args None None true) HAS_MCP config_file w) /\
  (arg_list a = false -> given (arg_describe a) = true ->
   main' a HAS_MCP config_file w =
   main' (mk_args None (arg_describe a) false) HAS_MCP config_file w).
Proof.
  split.
  - intros Hl. unfold main, dispatch. rewrite Hl. reflexivity.
  - intros Hl Hd. unfold main, dispatch. simpl. rewrite Hl, Hd. reflexivity.
Qed.

End Runs.

(** * Further properties of the catalog operations *)

Section Catalog.

Context {W : Type}.
Variable mcp : MCP W.

Lemma scan_tools_found_iff (q : string) (ts : list Tool) :
  scan_tools q ts <> VNone <-> exists t, In t ts /\ name t = q.
Proof.
  split.
  - intros H. induction ts as [| t ts IH]; simpl in H; [contradiction |].
    destruct (String.eqb_spec (name t) q) as [E | _].
    + exists t. split; [now left | exact E].
    + destruct (IH H) as (u & Hin & Hu). exists u. split; [now right | exact Hu].
  - intros Hex.
    destruct (first_match_split q ts Hex) as (before & t & rest & -> & Hb & Ht).
    rewrite (scan_tools_first q before t rest Hb Ht). discriminate.
Qed.

(** X16.  [describe_tool] and [list_tools] agree on which tools
    there are: against the same listing, [describe_tool] finds a tool
    exactly when [list_tools] returns an entry of that name. *)
Theorem described_iff_listed
        (q : string) (st st_c : state W) (s : ClientSession)
        (resp : ListToolsResult) (w1 : W) :
  via mcp st st_c s ->
  session_list_tools mcp s (world st_c) = (inr resp, w1) ->
  exists ds,
    fst (list_tools mcp st) = Ok (VList ds) /\
    (fst (describe_tool mcp q st) <> Ok VNone <->
     exists d, In (VDict d) ds /\ lookup "name" d = Some (VStr q)).
Proof.
  intros Hv Hl.
  rewrite (list_tools_via mcp st st_c s Hv), (describe_tool_via mcp q st st_c s Hv).
  unfold bind, await. rewrite Hl. simpl.
  eexists. split; [reflexivity |].
  split.
  - intros H.
    assert (Hs : scan_tools q (tools resp) <> VNone) by congruence.
    apply scan_tools_found_iff in Hs. destruct Hs as (t & Hin & Ht).
    exists [("name", VStr (name t)); ("description", description t)].
    split; [| simpl; now rewrite Ht].
    apply in_map_iff. now exists t.
  - intros (d & Hin & Hd) H.
    apply in_map_iff in Hin. destruct Hin as (t & E & Hin).
    injection E as <-. simpl in Hd. injection Hd as Hd.
    assert (Hs : scan_tools q (tools resp) <> VNone)
      by (apply scan_tools_found_iff; now exists t).
    congruence.
Qed.

(** X17.  When the [list_tools] request itself raises, [list_tools]
    and [describe_tool] raise that same error, and the executor keeps
    its session: the error does not disconnect it, and the next
    operation sends its request on the same session. *)
Theorem listing_error_propagates
        (q : string) (st st_c : state W) (s : ClientSession) (e : pyerror) (w1 : W) :
  via mcp st st_c s ->
  session_list_tools mcp s (world st_c) = (inl e, w1) ->
  fst (list_tools mcp st) = Raise (Error e) /\
  fst (describe_tool mcp q st) = Raise (Error e) /\
  session (self (snd (list_tools mcp st))) = Some s /\
  session (self (snd (describe_tool mcp q st))) = Some s.
Proof.
  intros Hv Hl.
  rewrite (list_tools_via mcp st st_c s Hv), (describe_tool_via mcp q st st_c s Hv).
  unfold bind, await. rewrite Hl. simpl.
  destruct Hv as [Hs _]. auto.
Qed.

End Catalog.

(** * Concrete runs for the further properties *)

Definition fussy_json_dumps (v : value) : pyerror + string :=
  match v with
  | VDict (("blob", _) :: _) => inl (mk_error "TypeError" "Object of type bytes is not JSON serializable")
  | _ => inr "<json>"
  end.

(** X1 on the mute server. *)
Lemma handshake_failure_keeps_session_mute :
  fst (list_tools mute_server echo_fresh) =
    Raise (Error (mk_error "McpError" "Connection closed")) /\
  session (self (snd (list_tools mute_server echo_fresh))) = Some echo_session.
Proof.
  destruct (handshake_failure_keeps_session mute_server OpList echo_fresh
              (mk_params (VStr "echo-server") (VList []) VNone) 0 1 2 2
              (mk_error "McpError" "Connection closed")
              eq_refl eq_refl eq_refl eq_refl) as (H1 & H2 & _).
  exact (conj H1 H2).
Defined.

(** X2 on the absent server. *)
Lemma spawn_failure_is_retried_absent :
  fst (list_tools absent_server echo_fresh) =
    Raise (Error (mk_error "FileNotFoundError" "No such file or directory")) /\
  self (snd (list_tools absent_server echo_fresh)) = self echo_fresh.
Proof.
  destruct (spawn_failure_is_retried absent_server OpList echo_fresh
              (mk_params (VStr "echo-server") (VList []) VNone)
              (mk_error "FileNotFoundError" "No such file or directory") 1
              eq_refl eq_refl eq_refl) as (H1 & H2 & _).
  exact (conj H1 H2).
Defined.

(** X3 on the empty configuration. *)
Lemma missing_command_raises_first_empty :
  trace (snd (run_op echo_server OpList (fresh (VDict []) 0))) = [EvConnect].
Proof.
  exact (proj1 (proj2 (missing_command_raises_first echo_server OpList
                         (fresh (VDict []) 0) [] eq_refl eq_refl eq_refl))).
Defined.

(** X4 on a configuration with a command only, on the ticking
    server. *)
Lemma absent_args_default_to_empty_bare :
  exists p,
    command p = VStr "srv" /\ args p = VList [] /\
    stdio_client ticking_server p 0 = (inr (0, 1), 2) /\
    session (self (snd (connect ticking_server
                                (fresh (VDict [("command", VStr "srv")]) 0))))
    = Some (mk_session 0 1) /\
    world (snd (connect ticking_server (fresh (VDict [("command", VStr "srv")]) 0))) = 3.
Proof.
  destruct (absent_args_default_to_empty ticking_server
              (fresh (VDict [("command", VStr "srv")]) 0)
              [("command", VStr "srv")] (VStr "srv")
              eq_refl eq_refl eq_refl eq_refl eq_refl)
    as (p & [_ Hstart] & _ & Hc & Ha).
  exists p. refine (conj Hc (conj Ha (conj eq_refl _))).
  now rewrite (Hstart 0 1 2 3 (inr tt) eq_refl eq_refl).
Defined.

(** X5 on the echo server. *)
Lemma executor_fixed_once_connected_echo :
  self (run_all echo_server
                [Use OpList; Close; Use (OpCall (VStr "ping") (VDict [])); Close]
                echo_ready) = self echo_ready.
Proof.
  exact (executor_fixed_once_connected echo_server
           [Use OpList; Close; Use (OpCall (VStr "ping") (VDict [])); Close]
           echo_ready echo_session eq_refl).
Defined.

(** X7 on the echo server, closed twice. *)
Lemma close_repeats_teardown_echo :
  trace (run_all echo_server [Close; Close] echo_ready) =
  trace echo_ready ++ [EvAexit echo_session; EvAexit echo_session].
Proof.
  exact (close_repeats_teardown echo_server 2 echo_ready echo_session eq_refl).
Defined.

(** X10 with no configuration file. *)
Lemma nothing_started_without_operation_no_file :
  events (main echo_server "mcp-config.json" host_json_loads host_json_dumps
               host_str host_format_exc "usage" (mk_args None None true) true None 0)
  = [].
Proof.
  apply (nothing_started_without_operation echo_server "mcp-config.json"
           host_json_loads host_json_dumps host_str host_format_exc "usage").
  left. reflexivity.
Defined.

(** X11 on a call without a tool name. *)
Lemma rejected_call_starts_nothing_no_tool :
  run_script echo_server "mcp-config.json" call_json_loads host_json_dumps
             host_str host_format_exc "usage"
             (mk_args (Some "{no tool}") None false) true (Some "{echo}") 0 =
    (1%Z, [Stderr "Error: 'tool'"; Stderr "Traceback (most recent call last): KeyError"]) /\
  events (main echo_server "mcp-config.json" call_json_loads host_json_dumps
               host_str host_format_exc "usage"
               (mk_args (Some "{no tool}") None false) true (Some "{echo}") 0)
  = [].
Proof.
  refine (rejected_call_starts_nothing echo_server "mcp-config.json"
            call_json_loads host_json_dumps host_str host_format_exc "usage"
            (mk_args (Some "{no tool}") None false) "{echo}" echo_config 0
            "{no tool}" (mk_error "KeyError" "'tool'")
            eq_refl eq_refl eq_refl eq_refl _ _).
  - discriminate.
  - right. exists [("arguments", VDict [])]. repeat split.
Defined.

(** X12 on the echo server's listing. *)
Lemma result_printed_as_json_echo :
  run_script echo_server "mcp-config.json" host_json_loads host_json_dumps
             host_str host_format_exc "usage"
             (mk_args None None true) true (Some "{echo}") 0 =
  (0%Z, [Stdout "<json>"]).
Proof.
  refine (result_printed_as_json echo_server "mcp-config.json" host_json_loads
            host_json_dumps host_str host_format_exc "usage"
            (mk_args None None true) "{echo}" echo_config 0 OpList
            (VList [VDict [("name", VStr "ping"); ("description", VStr "replies pong")]])
            (snd (run_op echo_server OpList (fresh echo_config 0))) "<json>"
            eq_refl _ eq_refl _ eq_refl).
  - left. split; reflexivity.
  - discriminate.
Defined.

(** X13: one text item, then an object that cannot be written. *)
Lemma printing_stops_at_first_failure_blob :
  for_each (print_item (W:=nat) fussy_json_dumps host_str)
           ([text_content "first"] ++ VObj "Blob" [("blob", VInt 0)]
                                   :: [text_content "never printed"])
           echo_fresh =
  (Raise (Error (mk_error "TypeError" "Object of type bytes is not JSON serializable")),
   mk_state (self echo_fresh) (world echo_fresh) (trace echo_fresh) [Stdout "first"]).
Proof.
  refine (printing_stops_at_first_failure fussy_json_dumps host_str
            [text_content "first"] [VStr "first"]
            (VObj "Blob" [("blob", VInt 0)]) [text_content "never printed"]
            (mk_error "TypeError" "Object of type bytes is not JSON serializable")
            echo_fresh _ _ eq_refl).
  - constructor; [| constructor].
    exists "TextContent", [("type", VStr "text"); ("text", VStr "first")].
    split; reflexivity.
  - intros cls attrs E. injection E as <- <-. reflexivity.
Defined.

(** X14 on a call the echo server answers with a tool-level failure:
    the text is printed and the status is 0. *)
Lemma call_prints_text_items_unknown_tool :
  run_script echo_server "mcp-config.json" host_json_loads host_json_dumps
             host_str host_format_exc "usage"
             (mk_args (Some "{call missing}") None false) true (Some "{echo}") 0 =
  (0%Z, [Stdout "Unknown tool"]).
Proof.
  refine (call_prints_text_items echo_server "mcp-config.json" host_json_loads
            host_json_dumps host_str host_format_exc "usage"
            (mk_args (Some "{call missing}") None false) "{echo}" echo_config 0
            "{call missing}" (VDict [("tool", VStr "missing")]) (VStr "missing")
            (VDict []) [text_content "Unknown tool"] [VStr "Unknown tool"]
            (snd (call_tool echo_server (VStr "missing") (VDict []) (fresh echo_config 0)))
            eq_refl eq_refl eq_refl eq_refl _ eq_refl eq_refl eq_refl eq_refl _).
  - discriminate.
  - constructor; [| constructor].
    exists "TextContent", [("type", VStr "text"); ("text", VStr "Unknown tool")].
    split; reflexivity.
Defined.

(** X15: [--list] together with a [--call] text that is not JSON. *)
Lemma first_selector_decides_list :
  main echo_server "mcp-config.json" host_json_loads host_json_dumps
       host_str host_format_exc "usage"
       (mk_args (Some "garbage") (Some "ping") true) true (Some "{echo}") 0 =
  main echo_server "mcp-config.json" host_json_loads host_json_dumps
       host_str host_format_exc "usage"
       (mk_args None None true) true (Some "{echo}") 0.
Proof.
  exact (proj1 (first_selector_decides echo_server "mcp-config.json" host_json_loads
                  host_json_dumps host_str host_format_exc "usage"
                  (mk_args (Some "garbage") (Some "ping") true) true (Some "{echo}") 0)
               eq_refl).
Defined.

(** X16 on the twin server. *)
Lemma described_iff_listed_twin :
  exists ds,
    fst (list_tools twin_server echo_fresh) = Ok (VList ds) /\
    (fst (describe_tool twin_server "b" echo_fresh) <> Ok VNone <->
     exists d, In (VDict d) ds /\ lookup "name" d = Some (VStr "b")).
Proof.
  refine (described_iff_listed twin_server "b" echo_fresh twin_ready echo_session
            twin_listing 2 _ eq_refl).
  split; [reflexivity | right; split; reflexivity].
Defined.

(** X17 on the garbled server. *)
Lemma listing_error_propagates_garbled :
  fst (list_tools garbled_server echo_fresh) =
    Raise (Error (mk_error "ValidationError" "malformed list_tools response")) /\
  session (self (snd (list_tools garbled_server echo_fresh))) = Some echo_session.
Proof.
  destruct (listing_error_propagates garbled_server "ping" echo_fresh
              (snd (connect garbled_server echo_fresh)) echo_session
              (mk_error "ValidationError" "malformed list_tools response") 2
              (conj eq_refl (or_intror (conj eq_refl eq_refl))) eq_refl)
    as (H1 & _ & H3 & _).
  exact (conj H1 H3).
Defined.
